(** * Petstore MCP bridge: tool dispatch, API client and text formatters

    A shallow embedding of [petstore_mcp/client.py] and
    [petstore_mcp/server.py].

    - Python values that travel through the bridge (tool arguments, JSON
      payloads) are the type [value]; dictionaries are association lists in
      insertion order, read by first match.  JSON numbers with a fraction or
      an exponent (Python floats) are outside the model.
    - A Python [str] is a [string] holding its UTF-8 bytes, so literals,
      concatenation and [join] are exact; [len], iteration and [repr] go
      by characters.  [repr] escapes as CPython does: the quote, the
      backslash, control characters, and above ASCII every code point that
      [str.isprintable] rejects.
    - Exceptions are values of [exn]; pure code runs in [res], code that
      talks to the remote service or prints runs in [io], which threads the
      requests sent and the lines printed.  Only subclasses of [Exception]
      are modelled (cancellation of a coroutine is not). *)

From Stdlib Require Import String Ascii List ZArith Bool Lia DecimalString.
Import ListNotations.
Local Open Scope list_scope.
Local Open Scope string_scope.

Set Implicit Arguments.

(** ** Python values *)

#[warnings="-register-all"]
Inductive value : Type :=
| VNone
| VBool (b : bool)
| VInt (n : Z)
| VStr (s : string)
| VList (items : list value)
| VDict (entries : list (string * value)).

Definition dict := list (string * value).

(** The newline character, as it occurs inside triple-quoted literals.  The
    source's ["\\n"] is a backslash followed by the letter n, which is what
    the two-character literal ["\n"] denotes here. *)
Definition nl : string := String (ascii_of_nat 10) EmptyString.

Definition dquote : ascii := ascii_of_nat 34.
Definition squote : ascii := ascii_of_nat 39.
Definition backslash : ascii := ascii_of_nat 92.

Definition str_of_Z (n : Z) : string := NilZero.string_of_int (Z.to_int n).

Definition type_name (v : value) : string :=
  match v with
  | VNone => "NoneType"
  | VBool _ => "bool"
  | VInt _ => "int"
  | VStr _ => "str"
  | VList _ => "list"
  | VDict _ => "dict"
  end.

(** [bool(v)]. *)
Definition truthy (v : value) : bool :=
  match v with
  | VNone => false
  | VBool b => b
  | VInt n => negb (Z.eqb n 0)
  | VStr s => negb (String.eqb s EmptyString)
  | VList l => match l with [] => false | _ => true end
  | VDict d => match d with [] => false | _ => true end
  end.

(** [a or b]. *)
Definition py_or (a b : value) : value := if truthy a then a else b.

(** *** [repr] and [str] *)

Fixpoint str_mem (c : ascii) (s : string) : bool :=
  match s with
  | EmptyString => false
  | String x r => Ascii.eqb x c || str_mem c r
  end.

Definition hex_digit (n : nat) : ascii :=
  ascii_of_nat (if Nat.ltb n 10 then 48 + n else 87 + n).

(** [repr] of a character below 128. *)
Definition repr_char (quote c : ascii) : string :=
  let n := nat_of_ascii c in
  if Ascii.eqb c quote || Ascii.eqb c backslash then String backslash (String c EmptyString)
  else if Nat.eqb n 9 then String backslash "t"
  else if Nat.eqb n 10 then String backslash "n"
  else if Nat.eqb n 13 then String backslash "r"
  else if Nat.ltb n 32 || Nat.eqb n 127 then
    String backslash (String "x" (String (hex_digit (Nat.div n 16))
                                 (String (hex_digit (Nat.modulo n 16)) EmptyString)))
  else String c EmptyString.

Definition is_continuation (s : string) : bool :=
  match s with
  | String c _ => Nat.leb 128 (nat_of_ascii c) && Nat.ltb (nat_of_ascii c) 192
  | EmptyString => false
  end.

(** The characters of a str, each with its continuation bytes. *)
Fixpoint str_chars (s : string) : list string :=
  match s with
  | EmptyString => []
  | String c r =>
      match str_chars r with
      | h :: t => if is_continuation h then String c h :: t
                  else String c EmptyString :: h :: t
      | [] => [String c EmptyString]
      end
  end.

Fixpoint continuation_bits (acc : N) (s : string) : N :=
  match s with
  | EmptyString => acc
  | String b r => continuation_bits (acc * 64 + N.modulo (N_of_ascii b) 64) r
  end.

(** The code point of a character given by its UTF-8 bytes. *)
Definition code_point (c : string) : N :=
  match c with
  | EmptyString => 0%N
  | String b r =>
      let n := N_of_ascii b in
      continuation_bits
        (if N.ltb n 128 then n
         else if N.ltb n 224 then N.modulo n 32
         else if N.ltb n 240 then N.modulo n 16
         else N.modulo n 8) r
  end.

(** The code points above 127 for which [str.isprintable] is false (the
    categories Other and Separator of Unicode 14.0, as in CPython 3.11), as
    inclusive ranges. *)
Definition unprintable : list (N * N) :=
  [(128, 160); (173, 173); (888, 889); (896, 899); (907, 907); (909, 909); (930, 930);
   (1328, 1328); (1367, 1368); (1419, 1420); (1424, 1424); (1480, 1487); (1515, 1518);
   (1525, 1541); (1564, 1564); (1757, 1757); (1806, 1807); (1867, 1868); (1970, 1983);
   (2043, 2044); (2094, 2095); (2111, 2111); (2140, 2141); (2143, 2143); (2155, 2159);
   (2191, 2199); (2274, 2274); (2436, 2436); (2445, 2446); (2449, 2450); (2473, 2473);
   (2481, 2481); (2483, 2485); (2490, 2491); (2501, 2502); (2505, 2506); (2511, 2518);
   (2520, 2523); (2526, 2526); (2532, 2533); (2559, 2560); (2564, 2564); (2571, 2574);
   (2577, 2578); (2601, 2601); (2609, 2609); (2612, 2612); (2615, 2615); (2618, 2619);
   (2621, 2621); (2627, 2630); (2633, 2634); (2638, 2640); (2642, 2648); (2653, 2653);
   (2655, 2661); (2679, 2688); (2692, 2692); (2702, 2702); (2706, 2706); (2729, 2729);
   (2737, 2737); (2740, 2740); (2746, 2747); (2758, 2758); (2762, 2762); (2766, 2767);
   (2769, 2783); (2788, 2789); (2802, 2808); (2816, 2816); (2820, 2820); (2829, 2830);
   (2833, 2834); (2857, 2857); (2865, 2865); (2868, 2868); (2874, 2875); (2885, 2886);
   (2889, 2890); (2894, 2900); (2904, 2907); (2910, 2910); (2916, 2917); (2936, 2945);
   (2948, 2948); (2955, 2957); (2961, 2961); (2966, 2968); (2971, 2971); (2973, 2973);
   (2976, 2978); (2981, 2983); (2987, 2989); (3002, 3005); (3011, 3013); (3017, 3017);
   (3022, 3023); (3025, 3030); (3032, 3045); (3067, 3071); (3085, 3085); (3089, 3089);
   (3113, 3113); (3130, 3131); (3141, 3141); (3145, 3145); (3150, 3156); (3159, 3159);
   (3163, 3164); (3166, 3167); (3172, 3173); (3184, 3190); (3213, 3213); (3217, 3217);
   (3241, 3241); (3252, 3252); (3258, 3259); (3269, 3269); (3273, 3273); (3278, 3284);
   (3287, 3292); (3295, 3295); (3300, 3301); (3312, 3312); (3315, 3327); (3341, 3341);
   (3345, 3345); (3397, 3397); (3401, 3401); (3408, 3411); (3428, 3429); (3456, 3456);
   (3460, 3460); (3479, 3481); (3506, 3506); (3516, 3516); (3518, 3519); (3527, 3529);
   (3531, 3534); (3541, 3541); (3543, 3543); (3552, 3557); (3568, 3569); (3573, 3584);
   (3643, 3646); (3676, 3712); (3715, 3715); (3717, 3717); (3723, 3723); (3748, 3748);
   (3750, 3750); (3774, 3775); (3781, 3781); (3783, 3783); (3790, 3791); (3802, 3803);
   (3808, 3839); (3912, 3912); (3949, 3952); (3992, 3992); (4029, 4029); (4045, 4045);
   (4059, 4095); (4294, 4294); (4296, 4300); (4302, 4303); (4681, 4681); (4686, 4687);
   (4695, 4695); (4697, 4697); (4702, 4703); (4745, 4745); (4750, 4751); (4785, 4785);
   (4790, 4791); (4799, 4799); (4801, 4801); (4806, 4807); (4823, 4823); (4881, 4881);
   (4886, 4887); (4955, 4956); (4989, 4991); (5018, 5023); (5110, 5111); (5118, 5119);
   (5760, 5760); (5789, 5791); (5881, 5887); (5910, 5918); (5943, 5951); (5972, 5983);
   (5997, 5997); (6001, 6001); (6004, 6015); (6110, 6111); (6122, 6127); (6138, 6143);
   (6158, 6158); (6170, 6175); (6265, 6271); (6315, 6319); (6390, 6399); (6431, 6431);
   (6444, 6447); (6460, 6463); (6465, 6467); (6510, 6511); (6517, 6527); (6572, 6575);
   (6602, 6607); (6619, 6621); (6684, 6685); (6751, 6751); (6781, 6782); (6794, 6799);
   (6810, 6815); (6830, 6831); (6863, 6911); (6989, 6991); (7039, 7039); (7156, 7163);
   (7224, 7226); (7242, 7244); (7305, 7311); (7355, 7356); (7368, 7375); (7419, 7423);
   (7958, 7959); (7966, 7967); (8006, 8007); (8014, 8015); (8024, 8024); (8026, 8026);
   (8028, 8028); (8030, 8030); (8062, 8063); (8117, 8117); (8133, 8133); (8148, 8149);
   (8156, 8156); (8176, 8177); (8181, 8181); (8191, 8207); (8232, 8239); (8287, 8303);
   (8306, 8307); (8335, 8335); (8349, 8351); (8385, 8399); (8433, 8447); (8588, 8591);
   (9255, 9279); (9291, 9311); (11124, 11125); (11158, 11158); (11508, 11512);
   (11558, 11558); (11560, 11564); (11566, 11567); (11624, 11630); (11633, 11646);
   (11671, 11679); (11687, 11687); (11695, 11695); (11703, 11703); (11711, 11711);
   (11719, 11719); (11727, 11727); (11735, 11735); (11743, 11743); (11870, 11903);
   (11930, 11930); (12020, 12031); (12246, 12271); (12284, 12288); (12352, 12352);
   (12439, 12440); (12544, 12548); (12592, 12592); (12687, 12687); (12772, 12783);
   (12831, 12831); (42125, 42127); (42183, 42191); (42540, 42559); (42744, 42751);
   (42955, 42959); (42962, 42962); (42964, 42964); (42970, 42993); (43053, 43055);
   (43066, 43071); (43128, 43135); (43206, 43213); (43226, 43231); (43348, 43358);
   (43389, 43391); (43470, 43470); (43482, 43485); (43519, 43519); (43575, 43583);
   (43598, 43599); (43610, 43611); (43715, 43738); (43767, 43776); (43783, 43784);
   (43791, 43792); (43799, 43807); (43815, 43815); (43823, 43823); (43884, 43887);
   (44014, 44015); (44026, 44031); (55204, 55215); (55239, 55242); (55292, 63743);
   (64110, 64111); (64218, 64255); (64263, 64274); (64280, 64284); (64311, 64311);
   (64317, 64317); (64319, 64319); (64322, 64322); (64325, 64325); (64451, 64466);
   (64912, 64913); (64968, 64974); (64976, 65007); (65050, 65055); (65107, 65107);
   (65127, 65127); (65132, 65135); (65141, 65141); (65277, 65280); (65471, 65473);
   (65480, 65481); (65488, 65489); (65496, 65497); (65501, 65503); (65511, 65511);
   (65519, 65531); (65534, 65535); (65548, 65548); (65575, 65575); (65595, 65595);
   (65598, 65598); (65614, 65615); (65630, 65663); (65787, 65791); (65795, 65798);
   (65844, 65846); (65935, 65935); (65949, 65951); (65953, 65999); (66046, 66175);
   (66205, 66207); (66257, 66271); (66300, 66303); (66340, 66348); (66379, 66383);
   (66427, 66431); (66462, 66462); (66500, 66503); (66518, 66559); (66718, 66719);
   (66730, 66735); (66772, 66775); (66812, 66815); (66856, 66863); (66916, 66926);
   (66939, 66939); (66955, 66955); (66963, 66963); (66966, 66966); (66978, 66978);
   (66994, 66994); (67002, 67002); (67005, 67071); (67383, 67391); (67414, 67423);
   (67432, 67455); (67462, 67462); (67505, 67505); (67515, 67583); (67590, 67591);
   (67593, 67593); (67638, 67638); (67641, 67643); (67645, 67646); (67670, 67670);
   (67743, 67750); (67760, 67807); (67827, 67827); (67830, 67834); (67868, 67870);
   (67898, 67902); (67904, 67967); (68024, 68027); (68048, 68049); (68100, 68100);
   (68103, 68107); (68116, 68116); (68120, 68120); (68150, 68151); (68155, 68158);
   (68169, 68175); (68185, 68191); (68256, 68287); (68327, 68330); (68343, 68351);
   (68406, 68408); (68438, 68439); (68467, 68471); (68498, 68504); (68509, 68520);
   (68528, 68607); (68681, 68735); (68787, 68799); (68851, 68857); (68904, 68911);
   (68922, 69215); (69247, 69247); (69290, 69290); (69294, 69295); (69298, 69375);
   (69416, 69423); (69466, 69487); (69514, 69551); (69580, 69599); (69623, 69631);
   (69710, 69713); (69750, 69758); (69821, 69821); (69827, 69839); (69865, 69871);
   (69882, 69887); (69941, 69941); (69960, 69967); (70007, 70015); (70112, 70112);
   (70133, 70143); (70162, 70162); (70207, 70271); (70279, 70279); (70281, 70281);
   (70286, 70286); (70302, 70302); (70314, 70319); (70379, 70383); (70394, 70399);
   (70404, 70404); (70413, 70414); (70417, 70418); (70441, 70441); (70449, 70449);
   (70452, 70452); (70458, 70458); (70469, 70470); (70473, 70474); (70478, 70479);
   (70481, 70486); (70488, 70492); (70500, 70501); (70509, 70511); (70517, 70655);
   (70748, 70748); (70754, 70783); (70856, 70863); (70874, 71039); (71094, 71095);
   (71134, 71167); (71237, 71247); (71258, 71263); (71277, 71295); (71354, 71359);
   (71370, 71423); (71451, 71452); (71468, 71471); (71495, 71679); (71740, 71839);
   (71923, 71934); (71943, 71944); (71946, 71947); (71956, 71956); (71959, 71959);
   (71990, 71990); (71993, 71994); (72007, 72015); (72026, 72095); (72104, 72105);
   (72152, 72153); (72165, 72191); (72264, 72271); (72355, 72367); (72441, 72703);
   (72713, 72713); (72759, 72759); (72774, 72783); (72813, 72815); (72848, 72849);
   (72872, 72872); (72887, 72959); (72967, 72967); (72970, 72970); (73015, 73017);
   (73019, 73019); (73022, 73022); (73032, 73039); (73050, 73055); (73062, 73062);
   (73065, 73065); (73103, 73103); (73106, 73106); (73113, 73119); (73130, 73439);
   (73465, 73647); (73649, 73663); (73714, 73726); (74650, 74751); (74863, 74863);
   (74869, 74879); (75076, 77711); (77811, 77823); (78895, 82943); (83527, 92159);
   (92729, 92735); (92767, 92767); (92778, 92781); (92863, 92863); (92874, 92879);
   (92910, 92911); (92918, 92927); (92998, 93007); (93018, 93018); (93026, 93026);
   (93048, 93052); (93072, 93759); (93851, 93951); (94027, 94030); (94088, 94094);
   (94112, 94175); (94181, 94191); (94194, 94207); (100344, 100351); (101590, 101631);
   (101641, 110575); (110580, 110580); (110588, 110588); (110591, 110591);
   (110883, 110927); (110931, 110947); (110952, 110959); (111356, 113663);
   (113771, 113775); (113789, 113791); (113801, 113807); (113818, 113819);
   (113824, 118527); (118574, 118575); (118599, 118607); (118724, 118783);
   (119030, 119039); (119079, 119080); (119155, 119162); (119275, 119295);
   (119366, 119519); (119540, 119551); (119639, 119647); (119673, 119807);
   (119893, 119893); (119965, 119965); (119968, 119969); (119971, 119972);
   (119975, 119976); (119981, 119981); (119994, 119994); (119996, 119996);
   (120004, 120004); (120070, 120070); (120075, 120076); (120085, 120085);
   (120093, 120093); (120122, 120122); (120127, 120127); (120133, 120133);
   (120135, 120137); (120145, 120145); (120486, 120487); (120780, 120781);
   (121484, 121498); (121504, 121504); (121520, 122623); (122655, 122879);
   (122887, 122887); (122905, 122906); (122914, 122914); (122917, 122917);
   (122923, 123135); (123181, 123183); (123198, 123199); (123210, 123213);
   (123216, 123535); (123567, 123583); (123642, 123646); (123648, 124895);
   (124903, 124903); (124908, 124908); (124911, 124911); (124927, 124927);
   (125125, 125126); (125143, 125183); (125260, 125263); (125274, 125277);
   (125280, 126064); (126133, 126208); (126270, 126463); (126468, 126468);
   (126496, 126496); (126499, 126499); (126501, 126502); (126504, 126504);
   (126515, 126515); (126520, 126520); (126522, 126522); (126524, 126529);
   (126531, 126534); (126536, 126536); (126538, 126538); (126540, 126540);
   (126544, 126544); (126547, 126547); (126549, 126550); (126552, 126552);
   (126554, 126554); (126556, 126556); (126558, 126558); (126560, 126560);
   (126563, 126563); (126565, 126566); (126571, 126571); (126579, 126579);
   (126584, 126584); (126589, 126589); (126591, 126591); (126602, 126602);
   (126620, 126624); (126628, 126628); (126634, 126634); (126652, 126703);
   (126706, 126975); (127020, 127023); (127124, 127135); (127151, 127152);
   (127168, 127168); (127184, 127184); (127222, 127231); (127406, 127461);
   (127491, 127503); (127548, 127551); (127561, 127567); (127570, 127583);
   (127590, 127743); (128728, 128732); (128749, 128751); (128765, 128767);
   (128884, 128895); (128985, 128991); (129004, 129007); (129009, 129023);
   (129036, 129039); (129096, 129103); (129114, 129119); (129160, 129167);
   (129198, 129199); (129202, 129279); (129620, 129631); (129646, 129647);
   (129653, 129655); (129661, 129663); (129671, 129679); (129709, 129711);
   (129723, 129727); (129734, 129743); (129754, 129759); (129768, 129775);
   (129783, 129791); (129939, 129939); (129995, 130031); (130042, 131071);
   (173792, 173823); (177977, 177983); (178206, 178207); (183970, 183983);
   (191457, 194559); (195102, 196607); (201547, 917759); (918000, 1114111)]%N.

Definition printable (cp : N) : bool :=
  negb (existsb (fun range => N.leb (fst range) cp && N.leb cp (snd range)) unprintable).

(** [width] lowercase hexadecimal digits of [n]. *)
Fixpoint hex (width : nat) (n : N) : string :=
  match width with
  | O => EmptyString
  | S w => hex w (N.div n 16) ++ String (hex_digit (N.to_nat (N.modulo n 16))) EmptyString
  end.

(** [repr] of one character: ASCII by [repr_char]; above that the
    character itself when it is printable, else its escape. *)
Definition repr_character (quote : ascii) (c : string) : string :=
  match c with
  | EmptyString => EmptyString
  | String b EmptyString =>
      if Nat.ltb (nat_of_ascii b) 128 then repr_char quote b
      else String backslash ("x" ++ hex 2 (N_of_ascii b))
  | _ =>
      let cp := code_point c in
      if printable cp then c
      else if N.ltb cp 256 then String backslash ("x" ++ hex 2 cp)
      else if N.ltb cp 65536 then String backslash ("u" ++ hex 4 cp)
      else String backslash ("U" ++ hex 8 cp)
  end.

Definition repr_chars (quote : ascii) (s : string) : string :=
  String.concat EmptyString (map (repr_character quote) (str_chars s)).

(** [repr] of a str: single quotes, unless the text has a single quote and
    no double quote. *)
Definition repr_str (s : string) : string :=
  let quote := if str_mem squote s && negb (str_mem dquote s) then dquote else squote in
  String quote (repr_chars quote s ++ String quote EmptyString).

Fixpoint py_repr (v : value) : string :=
  match v with
  | VNone => "None"
  | VBool b => if b then "True" else "False"
  | VInt n => str_of_Z n
  | VStr s => repr_str s
  | VList l => "[" ++ String.concat ", " (map py_repr l) ++ "]"
  | VDict d =>
      "{" ++ String.concat ", "
               (map (fun kv => let '(k, x) := kv in repr_str k ++ ": " ++ py_repr x) d)
          ++ "}"
  end.

(** [str(v)], which is also what an f-string field [{v}] renders. *)
Definition py_str (v : value) : string :=
  match v with
  | VStr s => s
  | _ => py_repr v
  end.

(** ** Exceptions *)

Inductive exn : Type :=
| KeyError (key : string)
| TypeError (msg : string)
| AttributeError (msg : string)
| JSONDecodeError (msg : string)
| TransportError (msg : string).

(** [str(e)]. *)
Definition exn_str (e : exn) : string :=
  match e with
  | KeyError k => repr_str k
  | TypeError m | AttributeError m | JSONDecodeError m | TransportError m => m
  end.

Inductive res (A : Type) : Type :=
| Ok (a : A)
| Raise (e : exn).
Arguments Raise {A} e.

Definition res_bind {A B} (m : res A) (k : A -> res B) : res B :=
  match m with
  | Ok a => k a
  | Raise e => Raise e
  end.

Declare Scope res_scope.
Delimit Scope res_scope with res.
Notation "x <- m ;; k" := (res_bind m (fun x => k))
  (at level 61, m at next level, right associativity) : res_scope.

Fixpoint res_map {A B} (f : A -> res B) (l : list A) : res (list B) :=
  match l with
  | [] => Ok []
  | a :: r =>
      match f a with
      | Ok b => match res_map f r with Ok bs => Ok (b :: bs) | Raise e => Raise e end
      | Raise e => Raise e
      end
  end.

(** ** Dictionaries and the built-ins the code calls *)

Fixpoint dict_lookup (d : dict) (k : string) : option value :=
  match d with
  | [] => None
  | (k', v) :: r => if String.eqb k' k then Some v else dict_lookup r k
  end.

Definition has_key (d : dict) (k : string) : bool :=
  match dict_lookup d k with Some _ => true | None => false end.

(** [d.get(k, default)] on a dict. *)
Definition dict_get (d : dict) (k : string) (default : value) : value :=
  match dict_lookup d k with
  | Some v => v
  | None => default
  end.

(** [d[k]] on a dict. *)
Definition dict_item (d : dict) (k : string) : res value :=
  match dict_lookup d k with
  | Some v => Ok v
  | None => Raise (KeyError k)
  end.

(** [d[k] = v]: the key keeps its place when it is there already. *)
Fixpoint dict_set (d : dict) (k : string) (v : value) : dict :=
  match d with
  | [] => [(k, v)]
  | (k', v') :: r => if String.eqb k' k then (k', v) :: r else (k', v') :: dict_set r k v
  end.

Definition no_attribute (v : value) (attr : string) : exn :=
  AttributeError (String squote (type_name v) ++ String squote " object has no attribute "
                    ++ String squote attr ++ String squote EmptyString).

(** [v.get(k, default)] on any value: only a dict has [get]. *)
Definition py_get (v : value) (k : string) (default : value) : res value :=
  match v with
  | VDict d => Ok (dict_get d k default)
  | _ => Raise (no_attribute v "get")
  end.

(** [v.items()]. *)
Definition py_items (v : value) : res (list (string * value)) :=
  match v with
  | VDict d => Ok d
  | _ => Raise (no_attribute v "items")
  end.

Definition not_iterable (v : value) : exn :=
  TypeError (String squote (type_name v) ++ String squote " object is not iterable").

(** What [for x in v] goes through. *)
Definition py_iter (v : value) : res (list value) :=
  match v with
  | VList l => Ok l
  | VStr s => Ok (map VStr (str_chars s))
  | VDict d => Ok (map (fun kv => VStr (fst kv)) d)
  | _ => Raise (not_iterable v)
  end.

(** [len(v)]. *)
Definition py_len (v : value) : res Z :=
  match v with
  | VList l => Ok (Z.of_nat (length l))
  | VStr s => Ok (Z.of_nat (length (str_chars s)))
  | VDict d => Ok (Z.of_nat (length d))
  | _ => Raise (TypeError ("object of type " ++ String squote (type_name v)
                             ++ String squote " has no len()"))
  end.

Fixpoint join_items (i : nat) (l : list value) : res (list string) :=
  match l with
  | [] => Ok []
  | VStr s :: r =>
      match join_items (S i) r with
      | Ok ss => Ok (s :: ss)
      | Raise e => Raise e
      end
  | v :: _ =>
      Raise (TypeError ("sequence item " ++ str_of_Z (Z.of_nat i)
                          ++ ": expected str instance, " ++ type_name v ++ " found"))
  end.

(** [sep.join(v)]. *)
Definition py_join (sep : string) (v : value) : res string :=
  match py_iter v with
  | Ok l =>
      match join_items 0 l with
      | Ok ss => Ok (String.concat sep ss)
      | Raise e => Raise e
      end
  | Raise _ => Raise (TypeError "can only join an iterable")
  end.

Definition is_substring (needle s : string) : bool :=
  match String.index 0 needle s with Some _ => true | None => false end.

(** [k in v] for a str [k]. *)
Definition py_contains (k : string) (v : value) : res bool :=
  match v with
  | VDict d => Ok (has_key d k)
  | VList l => Ok (existsb (fun x => match x with VStr s => String.eqb s k | _ => false end) l)
  | VStr s => Ok (is_substring k s)
  | _ => Raise (TypeError ("argument of type " ++ String squote (type_name v)
                             ++ String squote " is not iterable"))
  end.

(** [v[k]] for a str [k]. *)
Definition py_getitem (v : value) (k : string) : res value :=
  match v with
  | VDict d => dict_item d k
  | VList _ => Raise (TypeError "list indices must be integers or slices, not str")
  | VStr _ => Raise (TypeError ("string indices must be integers, not "
                                  ++ String squote "str" ++ String squote EmptyString))
  | _ => Raise (TypeError (String squote (type_name v)
                             ++ String squote " object is not subscriptable"))
  end.

(** ** The remote service and the effects of a call *)

Record request : Type := {
  method : string;
  url : string;
  headers : list (string * string);
  params : option dict;
  json : option value;
  request_timeout : Z
}.

(** What [httpx] hands back: the status, the raw body and what
    [response.json()] gives (it raises on a body that is not JSON). *)
Record response : Type := {
  status_code : Z;
  response_text : string;
  response_json : res value
}.

(** The outcome of one round trip: a response, or the exception that the
    HTTP library raised (connection refused, timeout, protocol error). *)
Inductive http_outcome : Type :=
| Responded (r : response)
| Failed (e : exn).

Definition backend := request -> http_outcome.

Record effects : Type := {
  issued : list request;
  printed : list string
}.

Definition no_effects : effects := {| issued := []; printed := [] |}.

Definition io (A : Type) : Type := backend -> effects -> res A * effects.

Definition io_ret {A} (a : A) : io A := fun _ w => (Ok a, w).

Definition io_lift {A} (r : res A) : io A := fun _ w => (r, w).

Definition io_bind {A B} (m : io A) (k : A -> io B) : io B :=
  fun srv w =>
    match m srv w with
    | (Ok a, w') => k a srv w'
    | (Raise e, w') => (Raise e, w')
    end.

(** [try: m  except Exception as e: handler e]. *)
Definition io_try {A} (m : io A) (handler : exn -> io A) : io A :=
  fun srv w =>
    match m srv w with
    | (Ok a, w') => (Ok a, w')
    | (Raise e, w') => handler e srv w'
    end.

Definition print (line : string) : io unit :=
  fun _ w => (Ok tt, {| issued := issued w; printed := printed w ++ [line] |}).

(** [await client.request(...)] inside [async with httpx.AsyncClient(...)]. *)
Definition client_request (r : request) : io response :=
  fun srv w =>
    let w' := {| issued := issued w ++ [r]; printed := printed w |} in
    match srv r with
    | Responded resp => (Ok resp, w')
    | Failed e => (Raise e, w')
    end.

Declare Scope io_scope.
Delimit Scope io_scope with io.
Notation "x <- m ;; k" := (io_bind m (fun x => k))
  (at level 61, m at next level, right associativity) : io_scope.
Notation "m ;;; k" := (io_bind m (fun _ => k))
  (at level 61, right associativity) : io_scope.

(** ** client.py *)

Record PetstoreClient : Type := {
  base_url : string;
  timeout : Z
}.

(** [os.getenv(name, default)] over an environment [env]. *)
Definition getenv (env : string -> option string) (name default : string) : string :=
  match env name with
  | Some v => v
  | None => default
  end.

(** [PetstoreClient.__init__]; the timeout is in seconds. *)
Definition PetstoreClient_init (env : string -> option string) : PetstoreClient :=
  let app_env := getenv env "APP_ENV" "local" in
  {| base_url :=
       if String.eqb app_env "local"
       then getenv env "API_BASE_URL" "http://localhost:3002"
       else getenv env "PRODUCTION_API_URL" "https://api.petstore.example.com";
     timeout := 30 |}.

Definition build_request (self : PetstoreClient) (method endpoint : string)
    (auth_token : value) (params : option dict) (json_data : option value) : request :=
  {| method := method;
     url := base_url self ++ "/api/v3" ++ endpoint;
     headers := if truthy auth_token
                then [("Authorization", "Bearer " ++ py_str auth_token)]
                else [];
     params := params;
     json := json_data;
     request_timeout := timeout self |}.

Definition _make_request (self : PetstoreClient) (method endpoint : string)
    (auth_token : value) (params : option dict) (json_data : option value) : io value :=
  io_try
    (response <- client_request (build_request self method endpoint auth_token params json_data) ;;
     if Z.eqb (status_code response) 200 || Z.eqb (status_code response) 201
     then io_lift (response_json response)
     else if Z.eqb (status_code response) 404
     then io_ret VNone
     else
       print ("API request failed: " ++ str_of_Z (status_code response)
                ++ " - " ++ response_text response) ;;;
       io_ret VNone)%io
    (fun e => print ("Request error: " ++ exn_str e) ;;; io_ret VNone)%io.

Definition search_pets_by_status (self : PetstoreClient) (status auth_token : value)
    : io value :=
  if negb (truthy auth_token) then io_ret (VList [])
  else
    (result <- _make_request self "GET" "/pet/findByStatus" auth_token
                 (Some [("status", status)]) None ;;
     io_ret (py_or result (VList [])))%io.

Definition search_pets_by_tags (self : PetstoreClient) (tags auth_token : value)
    : io value :=
  if negb (truthy auth_token) then io_ret (VList [])
  else
    (tags_param <- io_lift (py_join "," tags) ;;
     result <- _make_request self "GET" "/pet/findByTags" auth_token
                 (Some [("tags", VStr tags_param)]) None ;;
     io_ret (py_or result (VList [])))%io.

Definition get_pet_by_id (self : PetstoreClient) (pet_id auth_token : value) : io value :=
  if negb (truthy auth_token) then io_ret VNone
  else _make_request self "GET" ("/pet/" ++ py_str pet_id) auth_token None None.

Definition get_store_inventory (self : PetstoreClient) (auth_token : value) : io value :=
  _make_request self "GET" "/store/inventory" auth_token None None.

Definition get_order_by_id (self : PetstoreClient) (order_id auth_token : value) : io value :=
  _make_request self "GET" ("/store/order/" ++ py_str order_id) auth_token None None.

(** The dict [place_order] sends as the JSON body. *)
Definition order_data (pet_id ship_date : value) : dict :=
  let order_data := [("petId", pet_id); ("quantity", VInt 1);
                     ("status", VStr "placed"); ("complete", VBool false)] in
  if truthy ship_date then dict_set order_data "shipDate" ship_date else order_data.

Definition place_order (self : PetstoreClient) (pet_id auth_token ship_date : value)
    : io value :=
  _make_request self "POST" "/store/order" auth_token None
    (Some (VDict (order_data pet_id ship_date))).

Definition login_user (self : PetstoreClient) (username password : value) : io value :=
  _make_request self "GET" "/user/login" VNone
    (Some [("username", username); ("password", password)]) None.

Definition get_user_profile (self : PetstoreClient) (username auth_token : value) : io value :=
  _make_request self "GET" ("/user/" ++ py_str username) auth_token None None.

Definition create_user (self : PetstoreClient) (user_data : value) : io value :=
  _make_request self "POST" "/user" VNone None (Some user_data).

Definition add_pet (self : PetstoreClient) (pet_data auth_token : value) : io value :=
  _make_request self "POST" "/pet" auth_token None (Some pet_data).

(** *** Formatters *)

(** [pet.get("category", {}).get("name", "Unknown") if pet.get("category")
    else "Unknown"]. *)
Definition pet_category (pet : value) : res value :=
  (cond <- py_get pet "category" VNone ;;
   if truthy cond then
     category <- py_get pet "category" (VDict []) ;;
     py_get category "name" (VStr "Unknown")
   else Ok (VStr "Unknown"))%res.

(** [", ".join([tag.get("name", "") for tag in pet.get("tags", [])])]. *)
Definition pet_tags (pet : value) : res string :=
  (tags <- py_get pet "tags" (VList []) ;;
   items <- py_iter tags ;;
   names <- res_map (fun tag => py_get tag "name" (VStr EmptyString)) items ;;
   py_join ", " (VList names))%res.

(** One turn of the loop of [format_pets_list]: the text appended for [pet]. *)
Definition format_pet_line (pet : value) : res string :=
  (category <- pet_category pet ;;
   tags <- pet_tags pet ;;
   name <- py_get pet "name" (VStr "Unnamed") ;;
   id <- py_get pet "id" VNone ;;
   status <- py_get pet "status" VNone ;;
   Ok ("â€¢ " ++ py_str name ++ " (ID: " ++ py_str id ++ ") - " ++ py_str category
         ++ " - Status: " ++ py_str status
         ++ " - Tags: " ++ py_str (py_or (VStr tags) (VStr "None"))))%res.

Definition format_pets_list (pets : value) : res string :=
  if negb (truthy pets) then Ok "No pets found."
  else
    (items <- py_iter pets ;;
     formatted <- res_map format_pet_line items ;;
     Ok (String.concat "\n" formatted))%res.

Definition format_pet_details (pet : value) : res string :=
  (category <- pet_category pet ;;
   tags <- pet_tags pet ;;
   urls <- py_get pet "photoUrls" (VList []) ;;
   photos <- py_join ", " urls ;;
   name <- py_get pet "name" (VStr "Unnamed") ;;
   id <- py_get pet "id" VNone ;;
   status <- py_get pet "status" VNone ;;
   Ok ("Name: " ++ py_str name ++ nl
         ++ "ID: " ++ py_str id ++ nl
         ++ "Category: " ++ py_str category ++ nl
         ++ "Status: " ++ py_str status ++ nl
         ++ "Tags: " ++ py_str (py_or (VStr tags) (VStr "None")) ++ nl
         ++ "Photos: " ++ py_str (py_or (VStr photos) (VStr "None"))))%res.

Definition format_order_details (order : value) : res string :=
  (id <- py_get order "id" VNone ;;
   petId <- py_get order "petId" VNone ;;
   quantity <- py_get order "quantity" VNone ;;
   status <- py_get order "status" VNone ;;
   shipDate <- py_get order "shipDate" (VStr "Not set") ;;
   complete <- py_get order "complete" (VBool false) ;;
   Ok ("Order ID: " ++ py_str id ++ nl
         ++ "Pet ID: " ++ py_str petId ++ nl
         ++ "Quantity: " ++ py_str quantity ++ nl
         ++ "Status: " ++ py_str status ++ nl
         ++ "Ship Date: " ++ py_str shipDate ++ nl
         ++ "Complete: " ++ py_str complete))%res.

Definition format_user_details (user : value) : res string :=
  (username <- py_get user "username" VNone ;;
   firstName <- py_get user "firstName" (VStr EmptyString) ;;
   lastName <- py_get user "lastName" (VStr EmptyString) ;;
   email <- py_get user "email" (VStr "Not provided") ;;
   phone <- py_get user "phone" (VStr "Not provided") ;;
   role <- py_get user "role" (VStr "customer") ;;
   userStatus <- py_get user "userStatus" (VInt 1) ;;
   Ok ("Username: " ++ py_str username ++ nl
         ++ "Name: " ++ py_str firstName ++ " " ++ py_str lastName ++ nl
         ++ "Email: " ++ py_str email ++ nl
         ++ "Phone: " ++ py_str phone ++ nl
         ++ "Role: " ++ py_str role ++ nl
         ++ "Status: " ++ py_str userStatus))%res.

(** ** server.py *)

Record TextContent : Type := {
  type : string;
  text : string
}.

Definition text_content (t : string) : list TextContent :=
  [{| type := "text"; text := t |}].

(** The names of the tools [list_tools] advertises, in catalog order. *)
Definition tool_names : list string :=
  ["search_pets_by_status"; "search_pets_by_tags"; "get_pet_by_id";
   "get_store_inventory"; "get_order_by_id"; "place_order"; "login_user";
   "get_user_profile"; "create_user"; "add_pet"].

(** The [user_data] dict of the [create_user] branch. *)
Definition user_data (arguments : dict) : res dict :=
  (username <- dict_item arguments "username" ;;
   password <- dict_item arguments "password" ;;
   Ok [("username", username);
       ("password", password);
       ("email", dict_get arguments "email" VNone);
       ("firstName", dict_get arguments "first_name" VNone);
       ("lastName", dict_get arguments "last_name" VNone);
       ("phone", dict_get arguments "phone" VNone)])%res.

(** The [pet_data] dict of the [add_pet] branch. *)
Definition pet_data (arguments : dict) : res dict :=
  (name <- dict_item arguments "name" ;;
   tag_names <- py_iter (dict_get arguments "tag_names" (VList [])) ;;
   Ok [("name", name);
       ("category", VDict [("name", dict_get arguments "category_name" (VStr "Uncategorized"))]);
       ("status", dict_get arguments "status" (VStr "available"));
       ("photoUrls", dict_get arguments "photo_urls" (VList []));
       ("tags", VList (map (fun tag => VDict [("name", tag)]) tag_names))])%res.

(** The body of the [try] block of [call_tool]. *)
Definition call_tool_body (api_client : PetstoreClient) (name : string) (arguments : dict)
    : io (list TextContent) :=
  if String.eqb name "search_pets_by_status" then
    (status <- io_lift (dict_item arguments "status") ;;
     result <- search_pets_by_status api_client status VNone ;;
     count <- io_lift (py_len result) ;;
     status' <- io_lift (dict_item arguments "status") ;;
     pets <- io_lift (format_pets_list result) ;;
     io_ret (text_content ("Found " ++ str_of_Z count ++ " pets with status '"
                             ++ py_str status' ++ "':\n" ++ pets)))%io
  else if String.eqb name "search_pets_by_tags" then
    (tags <- io_lift (dict_item arguments "tags") ;;
     result <- search_pets_by_tags api_client tags VNone ;;
     count <- io_lift (py_len result) ;;
     pets <- io_lift (format_pets_list result) ;;
     io_ret (text_content ("Found " ++ str_of_Z count ++ " pets with tags "
                             ++ py_str tags ++ ":\n" ++ pets)))%io
  else if String.eqb name "get_pet_by_id" then
    (pet_id <- io_lift (dict_item arguments "pet_id") ;;
     result <- get_pet_by_id api_client pet_id VNone ;;
     if truthy result then
       details <- io_lift (format_pet_details result) ;;
       io_ret (text_content ("Pet Details:\n" ++ details))
     else io_ret (text_content "Pet not found"))%io
  else if String.eqb name "get_store_inventory" then
    (auth_token <- io_lift (dict_item arguments "auth_token") ;;
     result <- get_store_inventory api_client auth_token ;;
     if truthy result then
       items <- io_lift (py_items result) ;;
       let inventory_text :=
         String.concat "\n"
           (map (fun '(status, count) => status ++ ": " ++ py_str count ++ " pets") items) in
       io_ret (text_content ("Store Inventory:\n" ++ inventory_text))
     else io_ret (text_content "Failed to retrieve inventory"))%io
  else if String.eqb name "get_order_by_id" then
    (order_id <- io_lift (dict_item arguments "order_id") ;;
     auth_token <- io_lift (dict_item arguments "auth_token") ;;
     result <- get_order_by_id api_client order_id auth_token ;;
     if truthy result then
       details <- io_lift (format_order_details result) ;;
       io_ret (text_content ("Order Details:\n" ++ details))
     else io_ret (text_content "Order not found or access denied"))%io
  else if String.eqb name "place_order" then
    (pet_id <- io_lift (dict_item arguments "pet_id") ;;
     let ship_date := dict_get arguments "ship_date" VNone in
     auth_token <- io_lift (dict_item arguments "auth_token") ;;
     result <- place_order api_client pet_id auth_token ship_date ;;
     if truthy result then
       details <- io_lift (format_order_details result) ;;
       io_ret (text_content ("Order placed successfully:\n" ++ details))
     else io_ret (text_content "Failed to place order"))%io
  else if String.eqb name "login_user" then
    (username <- io_lift (dict_item arguments "username") ;;
     password <- io_lift (dict_item arguments "password") ;;
     result <- login_user api_client username password ;;
     has_token <- (if truthy result then io_lift (py_contains "token" result)
                   else io_ret false) ;;
     if has_token : bool then
       token <- io_lift (py_getitem result "token") ;;
       io_ret (text_content ("Login successful! Token: " ++ py_str token))
     else io_ret (text_content "Login failed - invalid credentials"))%io
  else if String.eqb name "get_user_profile" then
    (username <- io_lift (dict_item arguments "username") ;;
     auth_token <- io_lift (dict_item arguments "auth_token") ;;
     result <- get_user_profile api_client username auth_token ;;
     if truthy result then
       details <- io_lift (format_user_details result) ;;
       io_ret (text_content ("User Profile:\n" ++ details))
     else io_ret (text_content "User not found or access denied"))%io
  else if String.eqb name "create_user" then
    (data <- io_lift (user_data arguments) ;;
     result <- create_user api_client (VDict data) ;;
     if truthy result then
       details <- io_lift (format_user_details result) ;;
       io_ret (text_content ("User created successfully:\n" ++ details))
     else io_ret (text_content "Failed to create user"))%io
  else if String.eqb name "add_pet" then
    (data <- io_lift (pet_data arguments) ;;
     auth_token <- io_lift (dict_item arguments "auth_token") ;;
     result <- add_pet api_client (VDict data) auth_token ;;
     if truthy result then
       details <- io_lift (format_pet_details result) ;;
       io_ret (text_content ("Pet added successfully:\n" ++ details))
     else io_ret (text_content "Failed to add pet"))%io
  else io_ret (text_content ("Unknown tool: " ++ name)).

Definition call_tool (api_client : PetstoreClient) (name : string) (arguments : dict)
    : io (list TextContent) :=
  io_try (call_tool_body api_client name arguments)
         (fun e => io_ret (text_content ("Error: " ++ exn_str e))).

(** *** The tool catalog *)

Record Tool : Type := {
  name : string;
  description : string;
  inputSchema : value
}.

(** [list_tools]: the ten tools with their JSON schemas, as the source
    writes them. *)
Definition list_tools : list Tool :=
 [
  {| name := "search_pets_by_status";
     description := "Search for pets by their availability status (available, pending, sold)";
     inputSchema :=
       VDict
      [("type", VStr "object");
       ("properties",
         VDict
           [("status", VDict [("type", VStr "string"); ("enum", VList [VStr "available"; VStr "pending"; VStr "sold"]); ("description", VStr "Pet status to search for")])]);
       ("required", VList [VStr "status"])] |};
  {| name := "search_pets_by_tags";
     description := "Search for pets by tag names";
     inputSchema :=
       VDict
      [("type", VStr "object");
       ("properties",
         VDict
           [("tags", VDict [("type", VStr "array"); ("items", VDict [("type", VStr "string")]); ("description", VStr "Array of tag names to search for")])]);
       ("required", VList [VStr "tags"])] |};
  {| name := "get_pet_by_id";
     description := "Get detailed information about a specific pet";
     inputSchema :=
       VDict
      [("type", VStr "object");
       ("properties",
         VDict
           [("pet_id", VDict [("type", VStr "integer"); ("description", VStr "ID of the pet to retrieve")])]);
       ("required", VList [VStr "pet_id"])] |};
  {| name := "get_store_inventory";
     description := "Get inventory counts by pet status (requires store_owner or admin role)";
     inputSchema :=
       VDict
      [("type", VStr "object");
       ("properties",
         VDict
           [("auth_token", VDict [("type", VStr "string"); ("description", VStr "JWT authentication token")])]);
       ("required", VList [VStr "auth_token"])] |};
  {| name := "get_order_by_id";
     description := "Get details of a specific order";
     inputSchema :=
       VDict
      [("type", VStr "object");
       ("properties",
         VDict
           [("order_id", VDict [("type", VStr "integer"); ("description", VStr "ID of the order to retrieve")]);
            ("auth_token", VDict [("type", VStr "string"); ("description", VStr "JWT authentication token")])]);
       ("required", VList [VStr "order_id"; VStr "auth_token"])] |};
  {| name := "place_order";
     description := "Place a new order for a pet";
     inputSchema :=
       VDict
      [("type", VStr "object");
       ("properties",
         VDict
           [("pet_id", VDict [("type", VStr "integer"); ("description", VStr "ID of the pet to order")]);
            ("ship_date", VDict [("type", VStr "string"); ("description", VStr "Shipping date in ISO format"); ("format", VStr "date-time")]);
            ("auth_token", VDict [("type", VStr "string"); ("description", VStr "JWT authentication token")])]);
       ("required", VList [VStr "pet_id"; VStr "auth_token"])] |};
  {| name := "login_user";
     description := "Log in a user and get authentication token";
     inputSchema :=
       VDict
      [("type", VStr "object");
       ("properties",
         VDict
           [("username", VDict [("type", VStr "string"); ("description", VStr "Username")]);
            ("password", VDict [("type", VStr "string"); ("description", VStr "Password")])]);
       ("required", VList [VStr "username"; VStr "password"])] |};
  {| name := "get_user_profile";
     description := "Get user profile information";
     inputSchema :=
       VDict
      [("type", VStr "object");
       ("properties",
         VDict
           [("username", VDict [("type", VStr "string"); ("description", VStr "Username to retrieve")]);
            ("auth_token", VDict [("type", VStr "string"); ("description", VStr "JWT authentication token")])]);
       ("required", VList [VStr "username"; VStr "auth_token"])] |};
  {| name := "create_user";
     description := "Create a new user account";
     inputSchema :=
       VDict
      [("type", VStr "object");
       ("properties",
         VDict
           [("username", VDict [("type", VStr "string"); ("description", VStr "Username for the new account")]);
            ("password", VDict [("type", VStr "string"); ("description", VStr "Password for the new account")]);
            ("email", VDict [("type", VStr "string"); ("description", VStr "Email address")]);
            ("first_name", VDict [("type", VStr "string"); ("description", VStr "First name")]);
            ("last_name", VDict [("type", VStr "string"); ("description", VStr "Last name")]);
            ("phone", VDict [("type", VStr "string"); ("description", VStr "Phone number")])]);
       ("required", VList [VStr "username"; VStr "password"])] |};
  {| name := "add_pet";
     description := "Add a new pet to the store (requires store_owner or admin role)";
     inputSchema :=
       VDict
      [("type", VStr "object");
       ("properties",
         VDict
           [("name", VDict [("type", VStr "string"); ("description", VStr "Pet name")]);
            ("category_name", VDict [("type", VStr "string"); ("description", VStr "Category name (e.g., Dogs, Cats)")]);
            ("status", VDict [("type", VStr "string"); ("enum", VList [VStr "available"; VStr "pending"; VStr "sold"]); ("description", VStr "Pet status"); ("default", VStr "available")]);
            ("photo_urls", VDict [("type", VStr "array"); ("items", VDict [("type", VStr "string")]); ("description", VStr "Array of photo URLs")]);
            ("tag_names", VDict [("type", VStr "array"); ("items", VDict [("type", VStr "string")]); ("description", VStr "Array of tag names")]);
            ("auth_token", VDict [("type", VStr "string"); ("description", VStr "JWT authentication token")])]);
       ("required", VList [VStr "name"; VStr "auth_token"])] |}
 ].

(** * Vocabulary of the statements *)

(** What [_make_request] hands back, whatever the service did. *)
Definition collapse (out : http_outcome) : value :=
  match out with
  | Responded r =>
      if Z.eqb (status_code r) 200 || Z.eqb (status_code r) 201
      then match response_json r with Ok v => v | Raise _ => VNone end
      else VNone
  | Failed _ => VNone
  end.

(** An [io] computation that, when it returns, returns one text item. *)
Definition returns_one_text (m : io (list TextContent)) : Prop :=
  forall srv w l w', m srv w = (Ok l, w') -> exists t, l = text_content t.

Definition local_client : PetstoreClient := PetstoreClient_init (fun _ => None).

(** A service that answers every request with status 404. *)
Definition always_404 : backend :=
  fun _ => Responded {| status_code := 404;
                        response_text := "Pet not found";
                        response_json := Raise (JSONDecodeError "Expecting value") |}.

(** A service that answers every request with status 200 and the JSON body
    it was sent (null when there was none). *)
Definition echo : backend :=
  fun req => Responded {| status_code := 200;
                          response_text := EmptyString;
                          response_json := Ok match json req with
                                              | Some v => v
                                              | None => VNone
                                              end |}.

(** The text shown for field [k] of [d]: its [str], or [default] when the
    key is not there. *)
Definition shown (d : dict) (k default : string) : string :=
  match dict_lookup d k with
  | Some v => py_str v
  | None => default
  end.

(** A tag the formatter can name: an object whose name, when it has one, is
    a str. *)
Definition tag_ok (tag : value) : bool :=
  match tag with
  | VDict t =>
      match dict_get t "name" (VStr EmptyString) with
      | VStr _ => true
      | _ => false
      end
  | _ => false
  end.

(** A pet as the service describes it: an object whose category, when it
    has one, is an object (or null), and whose tags, when it has them, are
    a list of tags. *)
Definition pet_ok (pet : value) : bool :=
  match pet with
  | VDict d =>
      match dict_lookup d "category" with
      | None => true
      | Some (VDict _) => true
      | Some c => negb (truthy c)
      end
      && match dict_lookup d "tags" with
         | None => true
         | Some (VList tags) => forallb tag_ok tags
         | Some _ => false
         end
  | _ => false
  end.

Definition tag_name (tag : value) : string :=
  match tag with
  | VDict t => shown t "name" EmptyString
  | _ => EmptyString
  end.

Definition category_text (pet : dict) : string :=
  match dict_lookup pet "category" with
  | Some (VDict c) => shown c "name" "Unknown"
  | _ => "Unknown"
  end.

Definition tag_names_of (pet : dict) : list string :=
  match dict_lookup pet "tags" with
  | Some (VList tags) => map tag_name tags
  | _ => []
  end.

Definition tags_text (pet : dict) : string :=
  let joined := String.concat ", " (tag_names_of pet) in
  if String.eqb joined EmptyString then "None" else joined.

(** The marker the source puts in front of every entry of the list. *)
Definition bullet : string := "â€¢ ".

(** The entry of one pet, in the words of the specification, behind the
    marker. *)
Definition pet_entry (pet : value) : string :=
  match pet with
  | VDict d =>
      bullet ++ shown d "name" "Unnamed" ++ " (ID: " ++ shown d "id" "None" ++ ") - "
        ++ category_text d ++ " - Status: " ++ shown d "status" "None"
        ++ " - Tags: " ++ tags_text d
  | _ => EmptyString
  end.

(** The names the schema of a tool lists as required. *)
Definition required (t : Tool) : list string :=
  match inputSchema t with
  | VDict schema =>
      match dict_lookup schema "required" with
      | Some (VList keys) =>
          flat_map (fun key => match key with VStr k => [k] | _ => [] end) keys
      | _ => []
      end
  | _ => []
  end.

(** The header [_make_request] attaches for a token. *)
Definition auth_header (auth_token : value) : list (string * string) :=
  if truthy auth_token then [("Authorization", "Bearer " ++ py_str auth_token)] else [].

(** A request of client [self]: under its versioned base path, with its
    timeout. *)
Definition api_request (self : PetstoreClient) (req : request) : Prop :=
  (exists path, url req = base_url self ++ "/api/v3/" ++ path)
  /\ request_timeout req = timeout self.

(** An [io] computation that issues no request. *)
Definition sends_nothing {A} (m : io A) : Prop :=
  forall srv w, issued (snd (m srv w)) = issued w.

(** An [io] computation that issues no request, or one request of [self]. *)
Definition sends_at_most_one {A} (self : PetstoreClient) (m : io A) : Prop :=
  forall srv w,
    issued (snd (m srv w)) = issued w
    \/ exists req, issued (snd (m srv w)) = (issued w ++ [req])%list /\ api_request self req.

(** Photo URLs the formatter can join: no [photoUrls] key, or a list of
    strs. *)
Definition photos_ok (pet : dict) : bool :=
  match dict_lookup pet "photoUrls" with
  | None => true
  | Some (VList urls) => forallb (fun u => match u with VStr _ => true | _ => false end) urls
  | Some _ => false
  end.

Definition photos_text (pet : dict) : string :=
  match dict_lookup pet "photoUrls" with
  | Some (VList urls) =>
      let joined := String.concat ", " (map py_str urls) in
      if String.eqb joined EmptyString then "None" else joined
  | _ => "None"
  end.

(** An exception other than [KeyError]. *)
Definition not_key_error (e : exn) : Prop :=
  match e with
  | KeyError _ => False
  | _ => True
  end.

(** An [io] computation that, when it returns, returns one text item whose
    text satisfies [P]. *)
Definition returns_text_where (P : string -> Prop) (m : io (list TextContent)) : Prop :=
  forall srv w l w', m srv w = (Ok l, w') -> exists t, l = text_content t /\ P t.

(** A result that is not a raised [KeyError]. *)
Definition res_no_key {A} (r : res A) : Prop :=
  match r with
  | Ok _ => True
  | Raise e => not_key_error e
  end.

(** An [io] computation that never raises [KeyError]. *)
Definition io_no_key {A} (m : io A) : Prop :=
  forall srv w, res_no_key (fst (m srv w)).

(** * Properties *)

(** ** Lookups *)

Lemma dict_item_found d k v : dict_lookup d k = Some v -> dict_item d k = Ok v.
Proof. intros H. unfold dict_item. rewrite H. reflexivity. Qed.

Lemma dict_get_missing d k default : dict_lookup d k = None -> dict_get d k default = default.
Proof. intros H. unfold dict_get. rewrite H. reflexivity. Qed.

(** ** The request primitive *)

Lemma make_request_result self method endpoint auth_token params json_data srv w :
  fst (_make_request self method endpoint auth_token params json_data srv w)
  = Ok (collapse (srv (build_request self method endpoint auth_token params json_data))).
Proof.
  unfold _make_request, io_try, io_bind, client_request, collapse.
  destruct (srv _) as [r | e]; [| reflexivity].
  destruct (Z.eqb (status_code r) 200 || Z.eqb (status_code r) 201).
  - unfold io_lift. destruct (response_json r); reflexivity.
  - destruct (Z.eqb (status_code r) 404); reflexivity.
Qed.

Lemma make_request_issues_one self method endpoint auth_token params json_data srv w :
  issued (snd (_make_request self method endpoint auth_token params json_data srv w))
  = (issued w ++ [build_request self method endpoint auth_token params json_data])%list.
Proof.
  unfold _make_request, io_try, io_bind, client_request.
  destruct (srv _) as [r | e]; [| reflexivity].
  destruct (Z.eqb (status_code r) 200 || Z.eqb (status_code r) 201).
  - unfold io_lift. destruct (response_json r); reflexivity.
  - destruct (Z.eqb (status_code r) 404); reflexivity.
Qed.

(** C2: for every method, endpoint, token, query parameters and body,
    [_make_request] returns the parsed JSON body on status 200 or 201, None
    on status 404, None on every other status, None when the round trip
    fails or the body of a 200/201 response is not JSON, and it never
    raises. *)
Theorem make_request_never_raises
    (self : PetstoreClient) (method endpoint : string) (auth_token : value)
    (params : option dict) (json_data : option value) (srv : backend) (w : effects) :
  let req := build_request self method endpoint auth_token params json_data in
  let out := fst (_make_request self method endpoint auth_token params json_data srv w) in
  (forall r v, srv req = Responded r ->
               status_code r = 200%Z \/ status_code r = 201%Z ->
               response_json r = Ok v -> out = Ok v)
  /\ (forall r, srv req = Responded r -> status_code r = 404%Z -> out = Ok VNone)
  /\ (forall r, srv req = Responded r ->
                status_code r <> 200%Z -> status_code r <> 201%Z -> out = Ok VNone)
  /\ (forall e, srv req = Failed e -> out = Ok VNone)
  /\ (forall r e, srv req = Responded r -> response_json r = Raise e -> out = Ok VNone)
  /\ (exists v, out = Ok v).
Proof.
  intros req out. subst req out. rewrite make_request_result.
  repeat split.
  - intros r v Hr Hs Hj. rewrite Hr. unfold collapse. rewrite Hj.
    destruct Hs as [Hs | Hs]; rewrite Hs; reflexivity.
  - intros r Hr Hs. rewrite Hr. unfold collapse. rewrite Hs. reflexivity.
  - intros r Hr H200 H201. rewrite Hr. unfold collapse.
    apply Z.eqb_neq in H200. apply Z.eqb_neq in H201. rewrite H200, H201. reflexivity.
  - intros e Hr. rewrite Hr. reflexivity.
  - intros r e Hr Hj. rewrite Hr. unfold collapse. rewrite Hj.
    destruct (_ || _); reflexivity.
  - eexists. reflexivity.
Qed.

Lemma make_request_never_raises_witness :
  fst (_make_request local_client "POST" "/pet" (VStr "tok") None (Some (VInt 1))
         echo no_effects) = Ok (VInt 1)
  /\ fst (_make_request local_client "GET" "/pet/1" (VStr "tok") None None
            always_404 no_effects) = Ok VNone
  /\ fst (_make_request local_client "GET" "/pet/1" (VStr "tok") None None
            (fun _ => Failed (TransportError "timed out")) no_effects) = Ok VNone.
Proof.
  pose proof (make_request_never_raises local_client "POST" "/pet" (VStr "tok") None
                (Some (VInt 1)) echo no_effects) as H200.
  pose proof (make_request_never_raises local_client "GET" "/pet/1" (VStr "tok") None None
                always_404 no_effects) as H404.
  pose proof (make_request_never_raises local_client "GET" "/pet/1" (VStr "tok") None None
                (fun _ => Failed (TransportError "timed out")) no_effects) as Hfail.
  cbv zeta in H200, H404, Hfail.
  destruct H200 as (H200 & _). destruct H404 as (_ & H404 & _).
  destruct Hfail as (_ & _ & _ & Hfail & _).
  split; [| split].
  - exact (H200 _ (VInt 1) eq_refl (or_introl eq_refl) eq_refl).
  - exact (H404 _ eq_refl eq_refl).
  - exact (Hfail _ eq_refl).
Defined.

(** ** Anonymous search *)

(** C5: for every status value and every tag list, the two search operations
    called with no auth token return the empty list (not None, not an
    exception) without contacting the service, and the empty list is
    rendered as the text "No pets found.". *)
Theorem search_without_token_is_empty
    (self : PetstoreClient) (status tags : value) (srv : backend) (w : effects) :
  search_pets_by_status self status VNone srv w = (Ok (VList []), w)
  /\ search_pets_by_tags self tags VNone srv w = (Ok (VList []), w)
  /\ format_pets_list (VList []) = Ok "No pets found.".
Proof. repeat split. Qed.

(** ** The dispatcher boundary *)

Lemma returns_one_text_ret t : returns_one_text (io_ret (text_content t)).
Proof. intros srv w l w' H. inversion H. eauto. Qed.

Lemma returns_one_text_bind {A} (m : io A) k :
  (forall a, returns_one_text (k a)) -> returns_one_text (io_bind m k).
Proof.
  intros Hk srv w l w' H. unfold io_bind in H.
  destruct (m srv w) as [[a | e] w1]; [| discriminate].
  eapply Hk; eassumption.
Qed.

Ltac one_text :=
  repeat first
    [ apply returns_one_text_ret
    | apply returns_one_text_bind; intros
    | match goal with
      | |- returns_one_text (if ?b then _ else _) => destruct b
      | |- returns_one_text (let x := _ in _) => cbv zeta
      end ].

Lemma call_tool_body_one_text api_client name arguments :
  returns_one_text (call_tool_body api_client name arguments).
Proof. unfold call_tool_body. one_text. Qed.

(** C1: for every tool name and every argument bag, [call_tool] returns
    exactly one text item and never raises; when the body of its [try]
    block raises an exception [e], the item is the text "Error: " followed
    by [str(e)]. *)
Theorem call_tool_always_one_text
    (api_client : PetstoreClient) (name : string) (arguments : dict)
    (srv : backend) (w : effects) :
  (exists t w',
      call_tool api_client name arguments srv w
      = (Ok [{| type := "text"; text := t |}], w'))
  /\ (forall e w',
        call_tool_body api_client name arguments srv w = (Raise e, w') ->
        call_tool api_client name arguments srv w
        = (Ok [{| type := "text"; text := "Error: " ++ exn_str e |}], w')).
Proof.
  unfold call_tool, io_try. split.
  - destruct (call_tool_body api_client name arguments srv w) as [[l | e] w'] eqn:Hbody.
    + destruct (call_tool_body_one_text api_client name arguments _ _ Hbody) as [t ->]. exists t, w'. reflexivity.
    + eexists _, w'. reflexivity.
  - intros e w' H. rewrite H. reflexivity.
Qed.

Lemma call_tool_always_one_text_witness :
  call_tool local_client "get_order_by_id" [("order_id", VInt 3)] echo no_effects
  = (Ok [{| type := "text"; text := "Error: 'auth_token'" |}], no_effects).
Proof.
  pose proof (call_tool_always_one_text local_client "get_order_by_id"
                [("order_id", VInt 3)] echo no_effects) as (_ & Hraise).
  exact (Hraise (KeyError "auth_token") no_effects eq_refl).
Defined.

(** C10: a name that matches no tool of the catalog gets the text
    "Unknown tool: <name>", and neither a request nor a diagnostic is
    produced. *)
Theorem unknown_tool_text
    (api_client : PetstoreClient) (name : string) (arguments : dict)
    (srv : backend) (w : effects) :
  ~ In name tool_names ->
  call_tool api_client name arguments srv w
  = (Ok [{| type := "text"; text := "Unknown tool: " ++ name |}], w).
Proof.
  intros Hn. unfold call_tool, io_try, call_tool_body.
  repeat match goal with
  | |- context [String.eqb name ?s] =>
      destruct (String.eqb_spec name s) as [-> | _];
      [ exfalso; apply Hn; unfold tool_names; simpl; tauto | ]
  end.
  reflexivity.
Qed.

Lemma unknown_tool_text_witness :
  ~ In "nonexistent_tool" tool_names
  /\ call_tool (PetstoreClient_init (fun _ => None)) "nonexistent_tool" []
       (fun _ => Failed (TransportError "connection refused")) no_effects
     = (Ok [{| type := "text"; text := "Unknown tool: nonexistent_tool" |}], no_effects).
Proof.
  assert (H : ~ In "nonexistent_tool" tool_names).
  { unfold tool_names. simpl. intros H. repeat destruct H as [H | H]; try discriminate H. exact H. }
  split; [exact H |].
  exact (unknown_tool_text (PetstoreClient_init (fun _ => None)) []
           (fun _ => Failed (TransportError "connection refused")) no_effects H).
Defined.

(** ** Tools the dispatcher calls without a token *)

Ltac run_dispatch :=
  unfold call_tool, io_try, call_tool_body;
  cbn [String.eqb Ascii.eqb Bool.eqb];
  unfold io_bind, io_lift, io_ret; cbn beta.

(** C3, as amended: when the bag holds the tool's required argument, a
    dispatch of [search_pets_by_status] or [search_pets_by_tags] returns the
    rendering of the empty list and a dispatch of [get_pet_by_id] returns
    "Pet not found"; when the bag lacks it, the lookup raises [KeyError]
    and the dispatch returns the text "Error: '<key>'"; for every bag, none
    of the three issues a request or prints a diagnostic (the dispatcher
    passes no token, and the client methods return before building a
    request). *)
Theorem anonymous_tools_never_reach_service
    (api_client : PetstoreClient) (arguments : dict) (srv : backend) (w : effects) :
  (forall status, dict_lookup arguments "status" = Some status ->
     call_tool api_client "search_pets_by_status" arguments srv w
     = (Ok [{| type := "text";
               text := "Found 0 pets with status '" ++ py_str status
                         ++ "':\nNo pets found." |}], w))
  /\ (forall tags, dict_lookup arguments "tags" = Some tags ->
        call_tool api_client "search_pets_by_tags" arguments srv w
        = (Ok [{| type := "text";
                  text := "Found 0 pets with tags " ++ py_str tags
                            ++ ":\nNo pets found." |}], w))
  /\ (forall pet_id, dict_lookup arguments "pet_id" = Some pet_id ->
        call_tool api_client "get_pet_by_id" arguments srv w
        = (Ok [{| type := "text"; text := "Pet not found" |}], w))
  /\ (dict_lookup arguments "status" = None ->
      call_tool api_client "search_pets_by_status" arguments srv w
      = (Ok [{| type := "text"; text := "Error: 'status'" |}], w))
  /\ (dict_lookup arguments "tags" = None ->
      call_tool api_client "search_pets_by_tags" arguments srv w
      = (Ok [{| type := "text"; text := "Error: 'tags'" |}], w))
  /\ (dict_lookup arguments "pet_id" = None ->
      call_tool api_client "get_pet_by_id" arguments srv w
      = (Ok [{| type := "text"; text := "Error: 'pet_id'" |}], w))
  /\ (forall name,
        In name ["search_pets_by_status"; "search_pets_by_tags"; "get_pet_by_id"] ->
        snd (call_tool api_client name arguments srv w) = w).
Proof.
  repeat split.
  - intros status H. run_dispatch. rewrite (dict_item_found _ _ H). reflexivity.
  - intros tags H. run_dispatch. rewrite (dict_item_found _ _ H). reflexivity.
  - intros pet_id H. run_dispatch. rewrite (dict_item_found _ _ H). reflexivity.
  - intros H. run_dispatch. unfold dict_item. rewrite H. reflexivity.
  - intros H. run_dispatch. unfold dict_item. rewrite H. reflexivity.
  - intros H. run_dispatch. unfold dict_item. rewrite H. reflexivity.
  - intros name [<- | [<- | [<- | []]]]; run_dispatch; unfold dict_item.
    + destruct (dict_lookup arguments "status"); reflexivity.
    + destruct (dict_lookup arguments "tags"); reflexivity.
    + destruct (dict_lookup arguments "pet_id"); reflexivity.
Qed.

Lemma anonymous_tools_never_reach_service_witness :
  call_tool local_client "search_pets_by_status" [("status", VStr "available")] echo no_effects
  = (Ok [{| type := "text";
            text := "Found 0 pets with status 'available':\nNo pets found." |}], no_effects)
  /\ call_tool local_client "search_pets_by_tags"
       [("tags", VList [VStr "friendly"; VStr "small"])] echo no_effects
     = (Ok [{| type := "text";
               text := "Found 0 pets with tags ['friendly', 'small']:\nNo pets found." |}],
        no_effects)
  /\ call_tool local_client "get_pet_by_id" [("pet_id", VInt 1)] echo no_effects
     = (Ok [{| type := "text"; text := "Pet not found" |}], no_effects)
  /\ call_tool local_client "search_pets_by_tags"
       [("tags", VList [VStr (String (ascii_of_nat 194) (String (ascii_of_nat 160) EmptyString))])]
       echo no_effects
     = (Ok [{| type := "text";
               text := "Found 0 pets with tags ['\xa0']:\nNo pets found." |}],
        no_effects)
  /\ call_tool local_client "get_pet_by_id" [("id", VInt 1)] echo no_effects
     = (Ok [{| type := "text"; text := "Error: 'pet_id'" |}], no_effects).
Proof.
  pose proof (anonymous_tools_never_reach_service local_client
                [("status", VStr "available")] echo no_effects) as (Hs & _).
  pose proof (anonymous_tools_never_reach_service local_client
                [("tags", VList [VStr "friendly"; VStr "small"])] echo no_effects)
    as (_ & Ht & _).
  pose proof (anonymous_tools_never_reach_service local_client
                [("pet_id", VInt 1)] echo no_effects) as (_ & _ & Hp & _).
  pose proof (anonymous_tools_never_reach_service local_client
                [("tags", VList [VStr (String (ascii_of_nat 194)
                                         (String (ascii_of_nat 160) EmptyString))])]
                echo no_effects) as (_ & Hnbsp & _).
  pose proof (anonymous_tools_never_reach_service local_client
                [("id", VInt 1)] echo no_effects) as (_ & _ & _ & _ & _ & Hmiss & _).
  split; [| split; [| split; [| split]]].
  - exact (Hs _ eq_refl).
  - exact (Ht _ eq_refl).
  - exact (Hp _ eq_refl).
  - exact (Hnbsp _ eq_refl).
  - exact (Hmiss eq_refl).
Defined.

(** C3 as stated fails on a bag without the required argument: the lookup
    raises [KeyError] before any client method is called, and the text is
    the boundary's error rendering. *)
Lemma anonymous_tools_missing_argument :
  call_tool local_client "search_pets_by_status" [] echo no_effects
  = (Ok [{| type := "text"; text := "Error: 'status'" |}], no_effects)
  /\ call_tool local_client "search_pets_by_tags" [] echo no_effects
     = (Ok [{| type := "text"; text := "Error: 'tags'" |}], no_effects)
  /\ call_tool local_client "get_pet_by_id" [] echo no_effects
     = (Ok [{| type := "text"; text := "Error: 'pet_id'" |}], no_effects)
  /\ "Error: 'pet_id'" <> "Pet not found".
Proof. repeat split. discriminate. Qed.

(** C4, as amended: when the service answers 404, [get_pet_by_id] returns
    None for every token, and a dispatch of the tool with a [pet_id] yields
    exactly the text "Pet not found", without a trailing period. *)
Theorem get_pet_by_id_not_found
    (api_client : PetstoreClient) (arguments : dict) (pet_id : value)
    (srv : backend) (w : effects) :
  dict_lookup arguments "pet_id" = Some pet_id ->
  (forall req, exists r, srv req = Responded r /\ status_code r = 404%Z) ->
  call_tool api_client "get_pet_by_id" arguments srv w
  = (Ok [{| type := "text"; text := "Pet not found" |}], w)
  /\ (forall auth_token,
        fst (get_pet_by_id api_client pet_id auth_token srv w) = Ok VNone).
Proof.
  intros Hid H404. split.
  - run_dispatch. rewrite (dict_item_found _ _ Hid). reflexivity.
  - intros auth_token. unfold get_pet_by_id.
    destruct (truthy auth_token); [| reflexivity]. cbn [negb].
    rewrite make_request_result.
    destruct (H404 (build_request api_client "GET" ("/pet/" ++ py_str pet_id)
                      auth_token None None)) as (r & -> & Hs).
    unfold collapse. rewrite Hs. reflexivity.
Qed.

Lemma get_pet_by_id_not_found_witness :
  call_tool local_client "get_pet_by_id" [("pet_id", VInt 1)] always_404 no_effects
  = (Ok [{| type := "text"; text := "Pet not found" |}], no_effects)
  /\ (forall auth_token,
        fst (get_pet_by_id local_client (VInt 1) auth_token always_404 no_effects) = Ok VNone).
Proof.
  apply (@get_pet_by_id_not_found local_client [("pet_id", VInt 1)] (VInt 1)
           always_404 no_effects).
  - reflexivity.
  - intros req. eexists. split; reflexivity.
Defined.

(** C4 as stated fails: against a service answering 404 the text is "Pet not
    found", which is not "Pet not found." *)
Lemma pet_not_found_without_period :
  call_tool local_client "get_pet_by_id" [("pet_id", VInt 1)] always_404 no_effects
  = (Ok [{| type := "text"; text := "Pet not found" |}], no_effects)
  /\ text_content "Pet not found" <> text_content "Pet not found.".
Proof. split; [reflexivity | discriminate]. Qed.

(** ** Request bodies *)

Lemma place_order_issues self pet_id auth_token ship_date srv w :
  issued (snd (place_order self pet_id auth_token ship_date srv w))
  = (issued w ++ [build_request self "POST" "/store/order" auth_token None
                    (Some (VDict (order_data pet_id ship_date)))])%list.
Proof. unfold place_order. apply make_request_issues_one. Qed.

(** C6, as amended: for every pet id and token, [place_order] issues one
    POST whose JSON body is exactly petId, quantity 1, status "placed" and
    complete False, followed by shipDate holding [ship_date] verbatim when
    [ship_date] is supplied and truthy (a non-empty string); when it is not
    supplied (None) or is falsy, the body has no shipDate key at all.  The
    dispatcher passes the bag's [ship_date], or None when the bag has none. *)
Theorem place_order_body
    (self : PetstoreClient) (pet_id auth_token ship_date : value)
    (srv : backend) (w : effects) :
  issued (snd (place_order self pet_id auth_token ship_date srv w))
  = (issued w ++ [build_request self "POST" "/store/order" auth_token None
                    (Some (VDict (order_data pet_id ship_date)))])%list
  /\ order_data pet_id VNone
     = [("petId", pet_id); ("quantity", VInt 1);
        ("status", VStr "placed"); ("complete", VBool false)]
  /\ (truthy ship_date = false ->
      order_data pet_id ship_date
      = [("petId", pet_id); ("quantity", VInt 1);
         ("status", VStr "placed"); ("complete", VBool false)])
  /\ (truthy ship_date = true ->
      order_data pet_id ship_date
      = [("petId", pet_id); ("quantity", VInt 1);
         ("status", VStr "placed"); ("complete", VBool false);
         ("shipDate", ship_date)])
  /\ has_key (order_data pet_id ship_date) "shipDate" = truthy ship_date
  /\ (forall arguments,
        dict_lookup arguments "pet_id" = Some pet_id ->
        dict_lookup arguments "auth_token" = Some auth_token ->
        dict_get arguments "ship_date" VNone = ship_date ->
        issued (snd (call_tool self "place_order" arguments srv w))
        = (issued w ++ [build_request self "POST" "/store/order" auth_token None
                          (Some (VDict (order_data pet_id ship_date)))])%list).
Proof.
  split; [apply place_order_issues |].
  split; [reflexivity |].
  split; [intros H; unfold order_data; rewrite H; reflexivity |].
  split; [intros H; unfold order_data; rewrite H; reflexivity |].
  split; [unfold order_data; destruct (truthy ship_date); reflexivity |].
  intros arguments Hid Htok Hship.
  pose proof (place_order_issues self pet_id auth_token ship_date srv w) as Hiss.
  run_dispatch.
  rewrite (dict_item_found _ _ Hid), (dict_item_found _ _ Htok), Hship.
  destruct (place_order self pet_id auth_token ship_date srv w) as [[result | e] w1];
    simpl in Hiss; [| exact Hiss].
  destruct (truthy result); [| exact Hiss].
  destruct (format_order_details result); exact Hiss.
Qed.

Lemma place_order_body_witness :
  order_data (VInt 7) (VStr "2025-01-01T00:00:00Z")
  = [("petId", VInt 7); ("quantity", VInt 1);
     ("status", VStr "placed"); ("complete", VBool false);
     ("shipDate", VStr "2025-01-01T00:00:00Z")]
  /\ order_data (VInt 7) VNone
     = [("petId", VInt 7); ("quantity", VInt 1);
        ("status", VStr "placed"); ("complete", VBool false)]
  /\ map json (issued (snd (call_tool local_client "place_order"
                              [("pet_id", VInt 7); ("auth_token", VStr "tok");
                               ("ship_date", VStr "2025-01-01T00:00:00Z")]
                              echo no_effects)))
     = [Some (VDict (order_data (VInt 7) (VStr "2025-01-01T00:00:00Z")))].
Proof.
  pose proof (place_order_body local_client (VInt 7) (VStr "tok")
                (VStr "2025-01-01T00:00:00Z") echo no_effects)
    as (_ & Hnone & _ & Hsome & _ & Hcall).
  split; [exact (Hsome eq_refl) |].
  split; [exact Hnone |].
  rewrite (Hcall [("pet_id", VInt 7); ("auth_token", VStr "tok");
                  ("ship_date", VStr "2025-01-01T00:00:00Z")]
             eq_refl eq_refl eq_refl).
  reflexivity.
Defined.

(** C6 as stated fails for a ship date that is supplied but empty: the
    guard [if ship_date:] drops it, and the body sent has no shipDate. *)
Lemma empty_ship_date_is_dropped :
  order_data (VInt 7) (VStr EmptyString)
  = [("petId", VInt 7); ("quantity", VInt 1);
     ("status", VStr "placed"); ("complete", VBool false)]
  /\ has_key (order_data (VInt 7) (VStr EmptyString)) "shipDate" = false
  /\ map json (issued (snd (call_tool local_client "place_order"
                              [("pet_id", VInt 7); ("auth_token", VStr "tok");
                               ("ship_date", VStr EmptyString)]
                              echo no_effects)))
     = [Some (VDict [("petId", VInt 7); ("quantity", VInt 1);
                     ("status", VStr "placed"); ("complete", VBool false)])].
Proof. split; [reflexivity | split; reflexivity]. Qed.





(** ** Formatters *)

Lemma py_str_dict_get d k default :
  py_str (dict_get d k default) = shown d k (py_str default).
Proof. unfold dict_get, shown. destruct (dict_lookup d k); reflexivity. Qed.

(** C9, as amended: for every order object and every user object, a field
    the JSON omits is rendered with its default: ship date "Not set" and
    completion False for an order; email and phone "Not provided", role
    "customer" and status 1 for a user (and None for the fields that have
    no default).  A field that is present is rendered by its own value,
    so an explicit null is shown as "None", not as the default. *)
Theorem formatter_defaults (order user : dict) :
  format_order_details (VDict order)
  = Ok ("Order ID: " ++ shown order "id" "None" ++ nl
          ++ "Pet ID: " ++ shown order "petId" "None" ++ nl
          ++ "Quantity: " ++ shown order "quantity" "None" ++ nl
          ++ "Status: " ++ shown order "status" "None" ++ nl
          ++ "Ship Date: " ++ shown order "shipDate" "Not set" ++ nl
          ++ "Complete: " ++ shown order "complete" "False")
  /\ format_user_details (VDict user)
     = Ok ("Username: " ++ shown user "username" "None" ++ nl
             ++ "Name: " ++ shown user "firstName" EmptyString ++ " "
             ++ shown user "lastName" EmptyString ++ nl
             ++ "Email: " ++ shown user "email" "Not provided" ++ nl
             ++ "Phone: " ++ shown user "phone" "Not provided" ++ nl
             ++ "Role: " ++ shown user "role" "customer" ++ nl
             ++ "Status: " ++ shown user "userStatus" "1")
  /\ (forall (d : dict) k default, dict_lookup d k = None -> shown d k default = default)
  /\ (forall (d : dict) k default v, dict_lookup d k = Some v -> shown d k default = py_str v)
  /\ (forall (d : dict) k default, dict_lookup d k = Some VNone -> shown d k default = "None").
Proof.
  split; [| split].
  - unfold format_order_details, py_get. cbn [res_bind].
    rewrite !py_str_dict_get. reflexivity.
  - unfold format_user_details, py_get. cbn [res_bind].
    rewrite !py_str_dict_get. reflexivity.
  - split; [| split]; intros; unfold shown;
      match goal with H : dict_lookup _ _ = _ |- _ => rewrite H end; reflexivity.
Qed.

Lemma formatter_defaults_witness :
  format_order_details (VDict [("id", VInt 10); ("petId", VInt 7); ("quantity", VInt 1);
                               ("status", VStr "placed")])
  = Ok ("Order ID: 10" ++ nl ++ "Pet ID: 7" ++ nl ++ "Quantity: 1" ++ nl
          ++ "Status: placed" ++ nl ++ "Ship Date: Not set" ++ nl ++ "Complete: False")
  /\ format_user_details (VDict [("username", VStr "ann")])
     = Ok ("Username: ann" ++ nl ++ "Name:  " ++ nl ++ "Email: Not provided" ++ nl
             ++ "Phone: Not provided" ++ nl ++ "Role: customer" ++ nl ++ "Status: 1").
Proof.
  pose proof (formatter_defaults
                [("id", VInt 10); ("petId", VInt 7); ("quantity", VInt 1);
                 ("status", VStr "placed")]
                [("username", VStr "ann")]) as (Horder & Huser & _).
  split; [exact Horder | exact Huser].
Defined.

(** C9 as the specification reads it fails for a field that is present and
    null: the order's ship date and completion flag and the user's email,
    phone, role and status are then shown as "None", not as their
    defaults. *)
Lemma null_fields_render_none :
  format_order_details (VDict [("id", VInt 10); ("petId", VInt 7); ("quantity", VInt 1);
                               ("status", VStr "placed");
                               ("shipDate", VNone); ("complete", VNone)])
  = Ok ("Order ID: 10" ++ nl ++ "Pet ID: 7" ++ nl ++ "Quantity: 1" ++ nl
          ++ "Status: placed" ++ nl ++ "Ship Date: None" ++ nl ++ "Complete: None")
  /\ format_user_details (VDict [("username", VStr "ann"); ("email", VNone);
                                 ("phone", VNone); ("role", VNone); ("userStatus", VNone)])
     = Ok ("Username: ann" ++ nl ++ "Name:  " ++ nl ++ "Email: None" ++ nl
             ++ "Phone: None" ++ nl ++ "Role: None" ++ nl ++ "Status: None")
  /\ "Ship Date: None" <> "Ship Date: Not set"
  /\ "Email: None" <> "Email: Not provided".
Proof. repeat split; discriminate. Qed.

(** *** The list of pets *)

Lemma py_get_dict d k default : py_get (VDict d) k default = Ok (dict_get d k default).
Proof. reflexivity. Qed.

Lemma res_map_cons {A B} (f : A -> res B) a r :
  res_map f (a :: r)
  = match f a with
    | Ok b => match res_map f r with Ok bs => Ok (b :: bs) | Raise e => Raise e end
    | Raise e => Raise e
    end.
Proof. reflexivity. Qed.

Lemma tag_names_collected tags :
  forallb tag_ok tags = true ->
  res_map (fun tag => py_get tag "name" (VStr EmptyString)) tags
  = Ok (map (fun tag => VStr (tag_name tag)) tags).
Proof.
  induction tags as [| tag tags IH]; intros H; [reflexivity |].
  cbn [forallb] in H. apply andb_prop in H as [Htag Htags].
  specialize (IH Htags). rewrite res_map_cons. cbn [map].
  destruct tag as [| | | | | t]; try discriminate Htag.
  unfold tag_ok in Htag. cbn [py_get tag_name]. rewrite IH.
  unfold shown. unfold dict_get in *.
  destruct (dict_lookup t "name") as [[] |]; try discriminate Htag; reflexivity.
Qed.

Lemma join_items_strings i (ss : list string) :
  join_items i (map VStr ss) = Ok ss.
Proof.
  revert i. induction ss as [| s ss IH]; intros i; [reflexivity |].
  cbn [map join_items]. rewrite IH. reflexivity.
Qed.

Lemma pet_tags_ok d :
  match dict_lookup d "tags" with
  | None => true
  | Some (VList tags) => forallb tag_ok tags
  | Some _ => false
  end = true ->
  pet_tags (VDict d) = Ok (String.concat ", " (tag_names_of d)).
Proof.
  intros H. unfold pet_tags, tag_names_of. rewrite py_get_dict. unfold dict_get.
  destruct (dict_lookup d "tags") as [[| | | | tags |] |]; try discriminate H.
  - cbn [res_bind py_iter]. rewrite (tag_names_collected _ H). cbn [res_bind].
    unfold py_join. cbn [py_iter].
    rewrite <- (map_map tag_name VStr), join_items_strings. reflexivity.
  - reflexivity.
Qed.

Lemma pet_category_ok d :
  match dict_lookup d "category" with
  | None => true
  | Some (VDict _) => true
  | Some c => negb (truthy c)
  end = true ->
  exists v, pet_category (VDict d) = Ok v /\ py_str v = category_text d.
Proof.
  intros H. unfold pet_category, category_text. rewrite !py_get_dict. unfold dict_get.
  destruct (dict_lookup d "category") as [c |]; [| eexists; split; reflexivity].
  cbn [res_bind].
  destruct c as [| b | n | s | l | c]; cbn [truthy negb] in *.
  - eexists; split; reflexivity.
  - rewrite (negb_true_iff _) in H. rewrite H. eexists; split; reflexivity.
  - destruct (Z.eqb n 0); [| discriminate H]. eexists; split; reflexivity.
  - destruct (String.eqb s EmptyString); [| discriminate H]. eexists; split; reflexivity.
  - destruct l; [| discriminate H]. eexists; split; reflexivity.
  - destruct c as [| kv c].
    + eexists; split; reflexivity.
    + cbn [res_bind]. eexists; split; [reflexivity |]. apply py_str_dict_get.
Qed.

Lemma format_pet_line_ok pet :
  pet_ok pet = true -> format_pet_line pet = Ok (pet_entry pet).
Proof.
  destruct pet as [| | | | | d]; try discriminate. intros H.
  cbn [pet_ok] in H. apply andb_prop in H as [Hc Ht].
  unfold format_pet_line.
  destruct (pet_category_ok d Hc) as (v & Hcat & Hv);
    rewrite Hcat; cbn [res_bind]; rewrite (pet_tags_ok d Ht); cbn [res_bind py_get];
    rewrite !py_str_dict_get; unfold pet_entry, bullet, tags_text, py_or; cbn [truthy];
    destruct (String.eqb (String.concat ", " (tag_names_of d)) EmptyString);
    cbn [negb py_str]; try rewrite Hv; reflexivity.
Qed.

Lemma format_pet_lines_ok pets :
  forallb pet_ok pets = true ->
  res_map format_pet_line pets = Ok (map pet_entry pets).
Proof.
  induction pets as [| pet pets IH]; intros H; [reflexivity |].
  cbn [forallb] in H. apply andb_prop in H as [Hp Hps].
  rewrite res_map_cons, (format_pet_line_ok _ Hp), (IH Hps). reflexivity.
Qed.

Lemma str_mem_app c a b : str_mem c (a ++ b) = str_mem c a || str_mem c b.
Proof.
  induction a as [| x a IH]; [reflexivity |].
  cbn [append str_mem]. rewrite IH. apply orb_assoc.
Qed.

Lemma str_mem_concat c sep l :
  str_mem c sep = false ->
  (forall x, In x l -> str_mem c x = false) ->
  str_mem c (String.concat sep l) = false.
Proof.
  intros Hsep. induction l as [| x l IH]; intros Hl; [reflexivity |].
  destruct l as [| y l].
  - apply Hl. left. reflexivity.
  - change (String.concat sep (x :: y :: l)) with (x ++ sep ++ String.concat sep (y :: l)).
    rewrite !str_mem_app, Hsep, (Hl x (or_introl eq_refl)), IH; [reflexivity |].
    intros z Hz. apply Hl. right. exact Hz.
Qed.

(** C8, the code against the claim: for every list of pets as the service
    describes them, [format_pets_list] renders the empty list as "No pets
    found." and a non-empty list as one entry per pet, in list order; an
    entry is the source's marker followed by [name (ID: id) - category -
    Status: status - Tags: tags], with a missing category shown as
    "Unknown", missing or empty tags as "None", and tag names joined by
    ", " in list order.  But the entries are joined by a backslash and the
    letter n, not by a line break: unless a field itself holds a line
    break, the text of any number of pets is a single line, as for the two
    pets Rex and Tom. *)
Theorem format_pets_list_entries :
  format_pets_list (VList []) = Ok "No pets found."
  /\ (forall pet, pet_ok pet = true -> format_pets_list (VList [pet]) = Ok (pet_entry pet))
  /\ (forall pets,
        pets <> [] -> forallb pet_ok pets = true ->
        format_pets_list (VList pets)
        = Ok (String.concat (String backslash "n") (map pet_entry pets)))
  /\ (forall pets,
        pets <> [] -> forallb pet_ok pets = true ->
        (forall pet, In pet pets -> str_mem (ascii_of_nat 10) (pet_entry pet) = false) ->
        exists out,
          format_pets_list (VList pets) = Ok out /\ str_mem (ascii_of_nat 10) out = false)
  /\ format_pets_list (VList [VDict [("id", VInt 1); ("name", VStr "Rex")];
                              VDict [("id", VInt 2); ("name", VStr "Tom")]])
     = Ok ("â€¢ Rex (ID: 1) - Unknown - Status: None - Tags: None"
             ++ String backslash "n"
             ++ "â€¢ Tom (ID: 2) - Unknown - Status: None - Tags: None")
  /\ (forall d, pet_entry (VDict d)
                = bullet ++ shown d "name" "Unnamed" ++ " (ID: " ++ shown d "id" "None"
                    ++ ") - " ++ category_text d ++ " - Status: " ++ shown d "status" "None"
                    ++ " - Tags: " ++ tags_text d)
  /\ (forall d, dict_lookup d "category" = None -> category_text d = "Unknown")
  /\ (forall d, dict_lookup d "tags" = None \/ dict_lookup d "tags" = Some (VList []) ->
                tags_text d = "None")
  /\ (forall d names,
        dict_lookup d "tags" = Some (VList (map (fun n => VDict [("name", VStr n)]) names)) ->
        String.concat ", " names <> EmptyString ->
        tags_text d = String.concat ", " names).
Proof.
  assert (Hlist : forall pets, pets <> [] -> forallb pet_ok pets = true ->
            format_pets_list (VList pets)
            = Ok (String.concat (String backslash "n") (map pet_entry pets))).
  { intros pets Hne Hok. unfold format_pets_list.
    destruct pets as [| pet pets]; [contradiction |].
    cbn [truthy negb py_iter res_bind]. rewrite (format_pet_lines_ok _ Hok). reflexivity. }
  split; [reflexivity |].
  split.
  { intros pet Hok. rewrite Hlist; [reflexivity | discriminate |].
    cbn [forallb]. rewrite Hok. reflexivity. }
  split; [exact Hlist |].
  split.
  { intros pets Hne Hok Hentries. eexists. split; [exact (Hlist pets Hne Hok) |].
    apply str_mem_concat; [reflexivity |].
    intros x Hx. apply in_map_iff in Hx as (pet & <- & Hpet). exact (Hentries pet Hpet). }
  split; [reflexivity |].
  split; [reflexivity |].
  split; [intros d H; unfold category_text; rewrite H; reflexivity |].
  split.
  { intros d [H | H]; unfold tags_text, tag_names_of; rewrite H; reflexivity. }
  intros d names H Hne. unfold tags_text, tag_names_of. rewrite H.
  rewrite map_map. cbn [tag_name shown dict_lookup String.eqb Ascii.eqb Bool.eqb py_str].
  rewrite map_id.
  destruct (String.eqb_spec (String.concat ", " names) EmptyString); [contradiction | reflexivity].
Qed.

Lemma format_pets_list_entries_witness :
  format_pets_list
    (VList [VDict [("id", VInt 1); ("name", VStr "Rex");
                   ("category", VDict [("id", VInt 2); ("name", VStr "Dogs")]);
                   ("status", VStr "available");
                   ("tags", VList [VDict [("name", VStr "friendly")];
                                   VDict [("name", VStr "small")]])];
            VDict [("id", VInt 3); ("name", VStr "Tom"); ("status", VStr "sold")]])
  = Ok ("â€¢ Rex (ID: 1) - Dogs - Status: available - Tags: friendly, small"
          ++ String backslash "n"
          ++ "â€¢ Tom (ID: 3) - Unknown - Status: sold - Tags: None")
  /\ format_pets_list (VList [VDict [("id", VInt 3); ("name", VStr "Tom"); ("status", VStr "sold")]])
     = Ok "â€¢ Tom (ID: 3) - Unknown - Status: sold - Tags: None"
  /\ exists out,
       format_pets_list
         (VList [VDict [("id", VInt 1); ("name", VStr "Rex")];
                 VDict [("id", VInt 3); ("name", VStr "Tom")]]) = Ok out
       /\ str_mem (ascii_of_nat 10) out = false.
Proof.
  pose proof format_pets_list_entries as (_ & Hone & Hmany & Hline & _).
  split; [| split].
  - refine (Hmany [VDict [("id", VInt 1); ("name", VStr "Rex");
                          ("category", VDict [("id", VInt 2); ("name", VStr "Dogs")]);
                          ("status", VStr "available");
                          ("tags", VList [VDict [("name", VStr "friendly")];
                                          VDict [("name", VStr "small")]])];
                   VDict [("id", VInt 3); ("name", VStr "Tom"); ("status", VStr "sold")]]
              _ eq_refl).
    discriminate.
  - exact (Hone (VDict [("id", VInt 3); ("name", VStr "Tom"); ("status", VStr "sold")]) eq_refl).
  - refine (Hline [VDict [("id", VInt 1); ("name", VStr "Rex")];
                   VDict [("id", VInt 3); ("name", VStr "Tom")]] _ eq_refl _).
    + discriminate.
    + intros pet [<- | [<- | []]]; reflexivity.
Defined.

(** The entry of a pet starts with the marker, and a list holding an
    object whose category is a string is not rendered at all. *)
Lemma pets_list_entry_starts_with_marker :
  format_pets_list
    (VList [VDict [("id", VInt 1); ("name", VStr "Rex");
                   ("category", VDict [("name", VStr "Dogs")]);
                   ("status", VStr "available");
                   ("tags", VList [VDict [("name", VStr "friendly")]])]])
  = Ok "â€¢ Rex (ID: 1) - Dogs - Status: available - Tags: friendly"
  /\ "â€¢ Rex (ID: 1) - Dogs - Status: available - Tags: friendly"
     <> "Rex (ID: 1) - Dogs - Status: available - Tags: friendly"
  /\ format_pets_list (VList [VDict [("name", VStr "Rex"); ("category", VStr "Dogs")]])
     = Raise (AttributeError "'str' object has no attribute 'get'").
Proof. split; [reflexivity | split; [discriminate | reflexivity]]. Qed.

(** * Further properties of the client and the dispatcher *)

(** ** Diagnostics of the request primitive *)

(** X1: [_make_request] issues exactly one request and prints at most one
    line: nothing for a 200/201 response with a JSON body and nothing for a
    404; the status and the raw body for every other status; the message
    of the exception when the round trip fails or a 200/201 body is not
    JSON.  Earlier requests and lines are kept. *)
Theorem make_request_diagnostics
    (self : PetstoreClient) (method endpoint : string) (auth_token : value)
    (params : option dict) (json_data : option value) (srv : backend) (w : effects) :
  let req := build_request self method endpoint auth_token params json_data in
  let w' := snd (_make_request self method endpoint auth_token params json_data srv w) in
  issued w' = (issued w ++ [req])%list
  /\ (forall r v, srv req = Responded r ->
                  status_code r = 200%Z \/ status_code r = 201%Z ->
                  response_json r = Ok v -> printed w' = printed w)
  /\ (forall r, srv req = Responded r -> status_code r = 404%Z -> printed w' = printed w)
  /\ (forall r, srv req = Responded r ->
                status_code r <> 200%Z -> status_code r <> 201%Z -> status_code r <> 404%Z ->
                printed w'
                = (printed w ++ [("API request failed: " ++ str_of_Z (status_code r)
                                    ++ " - " ++ response_text r)%string])%list)
  /\ (forall r e, srv req = Responded r ->
                  status_code r = 200%Z \/ status_code r = 201%Z ->
                  response_json r = Raise e ->
                  printed w' = (printed w ++ [("Request error: " ++ exn_str e)%string])%list)
  /\ (forall e, srv req = Failed e ->
                printed w' = (printed w ++ [("Request error: " ++ exn_str e)%string])%list).
Proof.
  intros req w'. subst req w'.
  split; [apply make_request_issues_one |].
  unfold _make_request, io_try, io_bind, client_request.
  split; [| split; [| split; [| split]]].
  - intros r v Hr Hs Hj. rewrite Hr.
    replace (Z.eqb (status_code r) 200 || Z.eqb (status_code r) 201) with true
      by (destruct Hs as [-> | ->]; reflexivity).
    unfold io_lift. rewrite Hj. reflexivity.
  - intros r Hr Hs. rewrite Hr, Hs. reflexivity.
  - intros r Hr H200 H201 H404. rewrite Hr.
    apply Z.eqb_neq in H200, H201, H404. rewrite H200, H201, H404. reflexivity.
  - intros r e Hr Hs Hj. rewrite Hr.
    replace (Z.eqb (status_code r) 200 || Z.eqb (status_code r) 201) with true
      by (destruct Hs as [-> | ->]; reflexivity).
    unfold io_lift. rewrite Hj. reflexivity.
  - intros e Hr. rewrite Hr. reflexivity.
Qed.

Lemma make_request_diagnostics_witness :
  printed (snd (_make_request local_client "GET" "/pet/1" (VStr "tok") None None
                  always_404 no_effects)) = []
  /\ printed (snd (_make_request local_client "GET" "/pet/1" (VStr "tok") None None
                     (fun _ => Responded {| status_code := 500;
                                            response_text := "boom";
                                            response_json := Ok VNone |})
                     no_effects))
     = ["API request failed: 500 - boom"]
  /\ printed (snd (_make_request local_client "GET" "/pet/1" (VStr "tok") None None
                     (fun _ => Failed (TransportError "timed out")) no_effects))
     = ["Request error: timed out"].
Proof.
  pose proof (make_request_diagnostics local_client "GET" "/pet/1" (VStr "tok") None None
                always_404 no_effects) as H404.
  pose proof (make_request_diagnostics local_client "GET" "/pet/1" (VStr "tok") None None
                (fun _ => Responded {| status_code := 500;
                                       response_text := "boom";
                                       response_json := Ok VNone |})
                no_effects) as H500.
  pose proof (make_request_diagnostics local_client "GET" "/pet/1" (VStr "tok") None None
                (fun _ => Failed (TransportError "timed out")) no_effects) as Hfail.
  cbv zeta in H404, H500, Hfail.
  destruct H404 as (_ & _ & H404 & _). destruct H500 as (_ & _ & _ & H500 & _).
  destruct Hfail as (_ & _ & _ & _ & _ & Hfail).
  split; [| split].
  - exact (H404 _ eq_refl eq_refl).
  - refine (H500 _ eq_refl _ _ _); discriminate.
  - exact (Hfail _ eq_refl).
Defined.

(** ** How many requests a call issues *)

Lemma sends_nothing_ret {A} (a : A) : sends_nothing (io_ret a).
Proof. intros srv w. reflexivity. Qed.

Lemma sends_nothing_lift {A} (r : res A) : sends_nothing (io_lift r).
Proof. intros srv w. reflexivity. Qed.

Lemma sends_nothing_bind {A B} (m : io A) (k : A -> io B) :
  sends_nothing m -> (forall a, sends_nothing (k a)) -> sends_nothing (io_bind m k).
Proof.
  intros Hm Hk srv w. unfold io_bind. specialize (Hm srv w).
  destruct (m srv w) as [[a | e] w1]; simpl in Hm.
  - rewrite Hk. exact Hm.
  - exact Hm.
Qed.

Lemma sends_at_most_one_quiet {A} self (m : io A) :
  sends_nothing m -> sends_at_most_one self m.
Proof. intros H srv w. left. apply H. Qed.

Lemma sends_at_most_one_after {A B} self (m : io A) (k : A -> io B) :
  sends_nothing m -> (forall a, sends_at_most_one self (k a)) ->
  sends_at_most_one self (io_bind m k).
Proof.
  intros Hm Hk srv w. unfold io_bind. specialize (Hm srv w).
  destruct (m srv w) as [[a | e] w1]; simpl in Hm.
  - rewrite <- Hm. apply Hk.
  - left. exact Hm.
Qed.

Lemma sends_at_most_one_then {A B} self (m : io A) (k : A -> io B) :
  sends_at_most_one self m -> (forall a, sends_nothing (k a)) ->
  sends_at_most_one self (io_bind m k).
Proof.
  intros Hm Hk srv w. unfold io_bind. specialize (Hm srv w).
  destruct (m srv w) as [[a | e] w1]; simpl in Hm; [| exact Hm].
  pose proof (Hk a srv w1) as E.
  destruct Hm as [Hm | (req & Hm & Hreq)];
    [left | right; exists req; split; [| exact Hreq]]; rewrite E; exact Hm.
Qed.

Lemma sends_at_most_one_try {A} self (m : io A) (handler : exn -> io A) :
  sends_at_most_one self m -> (forall e, sends_nothing (handler e)) ->
  sends_at_most_one self (io_try m handler).
Proof.
  intros Hm Hh srv w. unfold io_try. specialize (Hm srv w).
  destruct (m srv w) as [[a | e] w1]; simpl in Hm; [exact Hm |].
  pose proof (Hh e srv w1) as E.
  destruct Hm as [Hm | (req & Hm & Hreq)];
    [left | right; exists req; split; [| exact Hreq]]; rewrite E; exact Hm.
Qed.

Lemma make_request_one self method path auth_token params json_data :
  sends_at_most_one self
    (_make_request self method ("/" ++ path) auth_token params json_data).
Proof.
  intros srv w. right. eexists. split; [apply make_request_issues_one |].
  split; [exists path; reflexivity | reflexivity].
Qed.

Ltac quiet :=
  cbv zeta;
  repeat first
    [ apply sends_nothing_ret
    | apply sends_nothing_lift
    | apply sends_nothing_bind; [| intros]
    | match goal with
      | |- sends_nothing (if ?b then _ else _) => destruct b
      end ].

Lemma client_methods_one self :
  (forall status auth_token, sends_at_most_one self (search_pets_by_status self status auth_token))
  /\ (forall tags auth_token, sends_at_most_one self (search_pets_by_tags self tags auth_token))
  /\ (forall pet_id auth_token, sends_at_most_one self (get_pet_by_id self pet_id auth_token))
  /\ (forall auth_token, sends_at_most_one self (get_store_inventory self auth_token))
  /\ (forall order_id auth_token, sends_at_most_one self (get_order_by_id self order_id auth_token))
  /\ (forall pet_id auth_token ship_date,
        sends_at_most_one self (place_order self pet_id auth_token ship_date))
  /\ (forall username password, sends_at_most_one self (login_user self username password))
  /\ (forall username auth_token, sends_at_most_one self (get_user_profile self username auth_token))
  /\ (forall user_data, sends_at_most_one self (create_user self user_data))
  /\ (forall pet_data auth_token, sends_at_most_one self (add_pet self pet_data auth_token)).
Proof.
  repeat split; intros.
  - unfold search_pets_by_status. destruct (negb (truthy auth_token)).
    + apply sends_at_most_one_quiet. quiet.
    + apply sends_at_most_one_then; [apply (make_request_one self "GET" "pet/findByStatus") |].
      intros. quiet.
  - unfold search_pets_by_tags. destruct (negb (truthy auth_token)).
    + apply sends_at_most_one_quiet. quiet.
    + apply sends_at_most_one_after; [quiet |]. intros.
      apply sends_at_most_one_then; [apply (make_request_one self "GET" "pet/findByTags") |].
      intros. quiet.
  - unfold get_pet_by_id. destruct (negb (truthy auth_token)).
    + apply sends_at_most_one_quiet. quiet.
    + apply (make_request_one self "GET" ("pet/" ++ py_str pet_id)).
  - apply (make_request_one self "GET" "store/inventory").
  - apply (make_request_one self "GET" ("store/order/" ++ py_str order_id)).
  - apply (make_request_one self "POST" "store/order").
  - apply (make_request_one self "GET" "user/login").
  - apply (make_request_one self "GET" ("user/" ++ py_str username)).
  - apply (make_request_one self "POST" "user").
  - apply (make_request_one self "POST" "pet").
Qed.

Ltac one_request self :=
  cbv zeta;
  repeat first
    [ apply sends_at_most_one_after; [apply sends_nothing_lift | intros]
    | apply sends_at_most_one_then; [apply (client_methods_one self) | intros; quiet]
    | apply sends_at_most_one_quiet; quiet ].

Lemma call_tool_one api_client name arguments :
  sends_at_most_one api_client (call_tool api_client name arguments).
Proof.
  unfold call_tool. apply sends_at_most_one_try; [| intros; quiet].
  unfold call_tool_body.
  repeat match goal with
  | |- sends_at_most_one _ (if String.eqb name ?s then _ else _) =>
      destruct (String.eqb name s); [one_request api_client |]
  end.
  apply sends_at_most_one_quiet. quiet.
Qed.

(** X2: a dispatch never issues more than one request, whatever the tool
    name, the bag and the service do (there is no retry), and the request,
    when there is one, goes to a path under [base_url + "/api/v3/"] with
    the client's timeout. *)
Theorem call_tool_sends_at_most_one
    (api_client : PetstoreClient) (name : string) (arguments : dict)
    (srv : backend) (w : effects) :
  issued (snd (call_tool api_client name arguments srv w)) = issued w
  \/ exists req,
       issued (snd (call_tool api_client name arguments srv w)) = (issued w ++ [req])%list
       /\ (exists path, url req = base_url api_client ++ "/api/v3/" ++ path)
       /\ request_timeout req = timeout api_client.
Proof. exact (call_tool_one api_client name arguments srv w). Qed.

(** ** Which request each client method issues *)

Lemma bind_make_request_issues {B} self method endpoint auth_token params json_data
    (k : value -> io B) srv w :
  (forall a, sends_nothing (k a)) ->
  issued (snd (io_bind (_make_request self method endpoint auth_token params json_data) k srv w))
  = (issued w ++ [build_request self method endpoint auth_token params json_data])%list.
Proof.
  intros Hk. unfold io_bind.
  pose proof (make_request_issues_one self method endpoint auth_token params json_data srv w)
    as Hiss.
  destruct (_make_request self method endpoint auth_token params json_data srv w)
    as [[a | e] w1]; simpl in Hiss; [rewrite Hk |]; exact Hiss.
Qed.

(** X3: the request behind each of the ten client methods.  Every method
    issues exactly one request with the HTTP method, path, query parameters
    and JSON body below (the three guarded methods when their token is
    truthy; [place_order] with shipDate only for a truthy ship date);
    the Authorization header is "Bearer <token>" for a truthy token and is
    left out otherwise, so [login_user] and [create_user] never send one. *)
Theorem client_routing (self : PetstoreClient) (srv : backend) (w : effects) :
  (forall status auth_token, truthy auth_token = true ->
     issued (snd (search_pets_by_status self status auth_token srv w))
     = (issued w ++ [build_request self "GET" "/pet/findByStatus" auth_token
                       (Some [("status", status)]) None])%list)
  /\ (forall tags auth_token joined, truthy auth_token = true ->
        py_join "," tags = Ok joined ->
        issued (snd (search_pets_by_tags self tags auth_token srv w))
        = (issued w ++ [build_request self "GET" "/pet/findByTags" auth_token
                          (Some [("tags", VStr joined)]) None])%list)
  /\ (forall pet_id auth_token, truthy auth_token = true ->
        issued (snd (get_pet_by_id self pet_id auth_token srv w))
        = (issued w ++ [build_request self "GET" ("/pet/" ++ py_str pet_id) auth_token
                          None None])%list)
  /\ (forall auth_token,
        issued (snd (get_store_inventory self auth_token srv w))
        = (issued w ++ [build_request self "GET" "/store/inventory" auth_token
                          None None])%list)
  /\ (forall order_id auth_token,
        issued (snd (get_order_by_id self order_id auth_token srv w))
        = (issued w ++ [build_request self "GET" ("/store/order/" ++ py_str order_id)
                          auth_token None None])%list)
  /\ (forall pet_id auth_token ship_date,
        issued (snd (place_order self pet_id auth_token ship_date srv w))
        = (issued w ++ [build_request self "POST" "/store/order" auth_token None
                          (Some (VDict (if truthy ship_date
                                        then [("petId", pet_id); ("quantity", VInt 1);
                                              ("status", VStr "placed");
                                              ("complete", VBool false);
                                              ("shipDate", ship_date)]
                                        else [("petId", pet_id); ("quantity", VInt 1);
                                              ("status", VStr "placed");
                                              ("complete", VBool false)])))])%list)
  /\ (forall username password,
        issued (snd (login_user self username password srv w))
        = (issued w ++ [{| method := "GET";
                           url := base_url self ++ "/api/v3/user/login";
                           headers := [];
                           params := Some [("username", username); ("password", password)];
                           json := None;
                           request_timeout := timeout self |}])%list)
  /\ (forall username auth_token,
        issued (snd (get_user_profile self username auth_token srv w))
        = (issued w ++ [build_request self "GET" ("/user/" ++ py_str username) auth_token
                          None None])%list)
  /\ (forall user_data,
        issued (snd (create_user self user_data srv w))
        = (issued w ++ [{| method := "POST";
                           url := base_url self ++ "/api/v3/user";
                           headers := [];
                           params := None;
                           json := Some user_data;
                           request_timeout := timeout self |}])%list)
  /\ (forall pet_data auth_token,
        issued (snd (add_pet self pet_data auth_token srv w))
        = (issued w ++ [build_request self "POST" "/pet" auth_token None
                          (Some pet_data)])%list)
  /\ (forall method endpoint auth_token params json_data,
        build_request self method endpoint auth_token params json_data
        = {| method := method;
             url := base_url self ++ "/api/v3" ++ endpoint;
             headers := auth_header auth_token;
             params := params;
             json := json_data;
             request_timeout := timeout self |}).
Proof.
  split; [| split; [| split]].
  - intros status auth_token Ht. unfold search_pets_by_status. rewrite Ht. cbn [negb].
    apply bind_make_request_issues. intros. quiet.
  - intros tags auth_token joined Ht Hj. unfold search_pets_by_tags. rewrite Ht. cbn [negb].
    unfold io_bind at 1. unfold io_lift at 1. rewrite Hj.
    apply bind_make_request_issues. intros. quiet.
  - intros pet_id auth_token Ht. unfold get_pet_by_id. rewrite Ht. cbn [negb].
    apply make_request_issues_one.
  - repeat split; intros; apply make_request_issues_one.
Qed.

Lemma client_routing_witness :
  map (fun req => (method req, url req, headers req))
    (issued (snd (search_pets_by_tags local_client (VList [VStr "a"; VStr "b"]) (VStr "tok")
                    echo no_effects)))
  = [("GET", "http://localhost:3002/api/v3/pet/findByTags", [("Authorization", "Bearer tok")])]
  /\ map params
       (issued (snd (search_pets_by_tags local_client (VList [VStr "a"; VStr "b"]) (VStr "tok")
                       echo no_effects)))
     = [Some [("tags", VStr "a,b")]].
Proof.
  pose proof (client_routing local_client echo no_effects) as (_ & Htags & _).
  rewrite (Htags (VList [VStr "a"; VStr "b"]) (VStr "tok") "a,b" eq_refl eq_refl).
  split; reflexivity.
Defined.

(** ** Searching with a token *)

Lemma py_join_type_error sep v e : py_join sep v = Raise e -> exists msg, e = TypeError msg.
Proof.
  unfold py_join. destruct (py_iter v) as [l | e0].
  - generalize 0%nat. induction l as [| x l IH]; intros i; [discriminate |].
    cbn [join_items]. destruct x; try (intros [= <-]; eauto).
    destruct (join_items (S i) l) eqn:Hj; [discriminate |].
    intros H. apply (IH (S i)). rewrite Hj. exact H.
  - intros [= <-]. eauto.
Qed.

(** X4: with a truthy token, [search_pets_by_status] never raises and never
    returns None: it returns the payload of a 200/201 response when that
    payload is truthy, and the empty list in every other case (404, any
    other status, a failed round trip, a null or empty payload).
    [search_pets_by_tags] does the same once the tags are joined. *)
Theorem search_with_token
    (self : PetstoreClient) (status tags auth_token : value) (srv : backend) (w : effects) :
  truthy auth_token = true ->
  let by_status := collapse (srv (build_request self "GET" "/pet/findByStatus" auth_token
                                    (Some [("status", status)]) None)) in
  fst (search_pets_by_status self status auth_token srv w)
  = Ok (if truthy by_status then by_status else VList [])
  /\ fst (search_pets_by_status self status auth_token srv w) <> Ok VNone
  /\ (forall joined, py_join "," tags = Ok joined ->
        let by_tags := collapse (srv (build_request self "GET" "/pet/findByTags" auth_token
                                        (Some [("tags", VStr joined)]) None)) in
        fst (search_pets_by_tags self tags auth_token srv w)
        = Ok (if truthy by_tags then by_tags else VList [])).
Proof.
  intros Ht by_status.
  assert (Hs : fst (search_pets_by_status self status auth_token srv w)
               = Ok (if truthy by_status then by_status else VList [])).
  { unfold search_pets_by_status. rewrite Ht. cbn [negb]. unfold io_bind.
    pose proof (make_request_result self "GET" "/pet/findByStatus" auth_token
                  (Some [("status", status)]) None srv w) as Hres.
    destruct (_make_request self "GET" "/pet/findByStatus" auth_token
                (Some [("status", status)]) None srv w) as [r w1].
    simpl in Hres. subst r. reflexivity. }
  split; [exact Hs |]. split.
  - rewrite Hs. destruct (truthy by_status) eqn:Hb; [| discriminate].
    intros [= H]. rewrite H in Hb. discriminate Hb.
  - intros joined Hj by_tags. unfold search_pets_by_tags. rewrite Ht. cbn [negb].
    unfold io_bind at 1. unfold io_lift at 1. rewrite Hj. unfold io_bind.
    pose proof (make_request_result self "GET" "/pet/findByTags" auth_token
                  (Some [("tags", VStr joined)]) None srv w) as Hres.
    destruct (_make_request self "GET" "/pet/findByTags" auth_token
                (Some [("tags", VStr joined)]) None srv w) as [r w1].
    simpl in Hres. subst r. reflexivity.
Qed.

Lemma search_with_token_witness :
  fst (search_pets_by_status local_client (VStr "sold") (VStr "tok") always_404 no_effects)
  = Ok (VList [])
  /\ fst (search_pets_by_tags local_client (VList [VStr "a"]) (VStr "tok") always_404 no_effects)
     = Ok (VList []).
Proof.
  pose proof (@search_with_token local_client (VStr "sold") (VList [VStr "a"]) (VStr "tok")
                always_404 no_effects eq_refl) as H.
  cbv zeta in H. destruct H as (Hs & _ & Ht).
  split; [exact Hs | exact (Ht "a" eq_refl)].
Defined.

(** X5: with a truthy token, tags that cannot be joined (a value that is
    not iterable, or an item that is not a str) make [search_pets_by_tags]
    raise a [TypeError] before any request is built: the exception leaves
    the client method, and nothing is sent or printed. *)
Theorem search_by_tags_unjoinable
    (self : PetstoreClient) (tags auth_token : value) (e : exn)
    (srv : backend) (w : effects) :
  truthy auth_token = true ->
  py_join "," tags = Raise e ->
  search_pets_by_tags self tags auth_token srv w = (Raise e, w)
  /\ exists msg, e = TypeError msg.
Proof.
  intros Ht Hj. split; [| exact (py_join_type_error _ _ Hj)].
  unfold search_pets_by_tags. rewrite Ht. cbn [negb].
  unfold io_bind, io_lift. rewrite Hj. reflexivity.
Qed.

Lemma search_by_tags_unjoinable_witness :
  search_pets_by_tags local_client (VList [VStr "a"; VInt 3]) (VStr "tok") echo no_effects
  = (Raise (TypeError "sequence item 1: expected str instance, int found"), no_effects)
  /\ exists msg, TypeError "sequence item 1: expected str instance, int found" = TypeError msg.
Proof.
  exact (@search_by_tags_unjoinable local_client (VList [VStr "a"; VInt 3]) (VStr "tok")
           (TypeError "sequence item 1: expected str instance, int found")
           echo no_effects eq_refl eq_refl).
Defined.

(** ** What the dispatcher shows for each outcome *)

Lemma make_request_run self method endpoint auth_token params json_data srv w :
  exists w',
    _make_request self method endpoint auth_token params json_data srv w
    = (Ok (collapse (srv (build_request self method endpoint auth_token params json_data))), w').
Proof.
  pose proof (make_request_result self method endpoint auth_token params json_data srv w) as H.
  destruct (_make_request self method endpoint auth_token params json_data srv w) as [r w'].
  simpl in H. subst r. eauto.
Qed.

Ltac run_client unfolder :=
  unfolder;
  match goal with
  | |- context [_make_request ?self ?m ?p ?t ?q ?j ?srv ?w] =>
      let w' := fresh "w'" in
      let E := fresh "E" in
      destruct (make_request_run self m p t q j srv w) as [w' E]; rewrite E
  end.

(** X6: when the service delivers no truthy payload (a 404, any other
    status, a failed round trip, a null or empty body), each tool that
    reaches the service answers with its own fixed text, the same for all
    of these outcomes ([add_pet] when its [tag_names], if present, can be
    iterated, so that a body is built and posted). *)
Theorem absent_result_texts
    (api_client : PetstoreClient) (arguments : dict) (srv : backend) (w : effects) :
  (forall req, truthy (collapse (srv req)) = false) ->
  (forall auth_token, dict_lookup arguments "auth_token" = Some auth_token ->
     fst (call_tool api_client "get_store_inventory" arguments srv w)
     = Ok (text_content "Failed to retrieve inventory"))
  /\ (forall order_id auth_token,
        dict_lookup arguments "order_id" = Some order_id ->
        dict_lookup arguments "auth_token" = Some auth_token ->
        fst (call_tool api_client "get_order_by_id" arguments srv w)
        = Ok (text_content "Order not found or access denied"))
  /\ (forall pet_id auth_token,
        dict_lookup arguments "pet_id" = Some pet_id ->
        dict_lookup arguments "auth_token" = Some auth_token ->
        fst (call_tool api_client "place_order" arguments srv w)
        = Ok (text_content "Failed to place order"))
  /\ (forall username password,
        dict_lookup arguments "username" = Some username ->
        dict_lookup arguments "password" = Some password ->
        fst (call_tool api_client "login_user" arguments srv w)
        = Ok (text_content "Login failed - invalid credentials")
        /\ fst (call_tool api_client "create_user" arguments srv w)
           = Ok (text_content "Failed to create user"))
  /\ (forall username auth_token,
        dict_lookup arguments "username" = Some username ->
        dict_lookup arguments "auth_token" = Some auth_token ->
        fst (call_tool api_client "get_user_profile" arguments srv w)
        = Ok (text_content "User not found or access denied"))
  /\ (forall name tag_names auth_token,
        dict_lookup arguments "name" = Some name ->
        py_iter (dict_get arguments "tag_names" (VList [])) = Ok tag_names ->
        dict_lookup arguments "auth_token" = Some auth_token ->
        fst (call_tool api_client "add_pet" arguments srv w)
        = Ok (text_content "Failed to add pet")).
Proof.
  intros Habsent.
  split; [| split; [| split; [| split; [| split]]]].
  - intros auth_token Ht. run_dispatch. rewrite (dict_item_found _ _ Ht).
    run_client ltac:(unfold get_store_inventory). rewrite Habsent. reflexivity.
  - intros order_id auth_token Ho Ht. run_dispatch.
    rewrite (dict_item_found _ _ Ho), (dict_item_found _ _ Ht).
    run_client ltac:(unfold get_order_by_id). rewrite Habsent. reflexivity.
  - intros pet_id auth_token Hp Ht. run_dispatch.
    rewrite (dict_item_found _ _ Hp), (dict_item_found _ _ Ht).
    run_client ltac:(unfold place_order). rewrite Habsent. reflexivity.
  - intros username password Hu Hp. split.
    + run_dispatch. rewrite (dict_item_found _ _ Hu), (dict_item_found _ _ Hp).
      run_client ltac:(unfold login_user). rewrite Habsent. reflexivity.
    + run_dispatch. unfold user_data.
      rewrite (dict_item_found _ _ Hu), (dict_item_found _ _ Hp). cbn [res_bind].
      run_client ltac:(unfold create_user). rewrite Habsent. reflexivity.
  - intros username auth_token Hu Ht. run_dispatch.
    rewrite (dict_item_found _ _ Hu), (dict_item_found _ _ Ht).
    run_client ltac:(unfold get_user_profile). rewrite Habsent. reflexivity.
  - intros name tag_names auth_token Hn Hi Ht. run_dispatch. unfold pet_data.
    rewrite (dict_item_found _ _ Hn). cbn [res_bind]. rewrite Hi. cbn [res_bind].
    rewrite (dict_item_found _ _ Ht).
    run_client ltac:(unfold add_pet). rewrite Habsent. reflexivity.
Qed.

Lemma absent_result_texts_witness :
  fst (call_tool local_client "get_order_by_id"
         [("order_id", VInt 3); ("auth_token", VStr "tok")]
         (fun _ => Responded {| status_code := 500;
                                response_text := "boom";
                                response_json := Ok (VDict [("id", VInt 3)]) |})
         no_effects)
  = Ok (text_content "Order not found or access denied")
  /\ fst (call_tool local_client "get_order_by_id"
            [("order_id", VInt 3); ("auth_token", VStr "tok")] always_404 no_effects)
     = Ok (text_content "Order not found or access denied").
Proof.
  split.
  - refine (proj1 (proj2 (@absent_result_texts local_client
                            [("order_id", VInt 3); ("auth_token", VStr "tok")]
                            (fun _ => Responded {| status_code := 500;
                                                   response_text := "boom";
                                                   response_json := Ok (VDict [("id", VInt 3)]) |})
                            no_effects _)) _ _ eq_refl eq_refl).
    intros req. reflexivity.
  - refine (proj1 (proj2 (@absent_result_texts local_client
                            [("order_id", VInt 3); ("auth_token", VStr "tok")]
                            always_404 no_effects _)) _ _ eq_refl eq_refl).
    intros req. reflexivity.
Defined.

(** X7: the inventory tool shows a payload that is a non-empty object as
    one "status: count pets" entry per key, in the order of the object; an
    empty object is falsy and is reported as a failure; a truthy payload
    that is not an object has no [items] and is reported as an error. *)
Theorem inventory_rendering
    (api_client : PetstoreClient) (arguments : dict) (auth_token payload : value)
    (srv : backend) (w : effects) :
  dict_lookup arguments "auth_token" = Some auth_token ->
  collapse (srv (build_request api_client "GET" "/store/inventory" auth_token None None))
  = payload ->
  (forall kv inventory, payload = VDict (kv :: inventory) ->
     fst (call_tool api_client "get_store_inventory" arguments srv w)
     = Ok (text_content
             ("Store Inventory:\n"
                ++ String.concat "\n"
                     (map (fun '(status, count) => status ++ ": " ++ py_str count ++ " pets")
                          (kv :: inventory)))))
  /\ (payload = VDict [] ->
      fst (call_tool api_client "get_store_inventory" arguments srv w)
      = Ok (text_content "Failed to retrieve inventory"))
  /\ (truthy payload = true -> (forall d, payload <> VDict d) ->
      fst (call_tool api_client "get_store_inventory" arguments srv w)
      = Ok (text_content ("Error: '" ++ type_name payload
                            ++ "' object has no attribute 'items'"))).
Proof.
  intros Ht Hp.
  assert (Hrun : fst (call_tool api_client "get_store_inventory" arguments srv w)
                 = fst (io_try
                          (if truthy payload then
                             io_bind (io_lift (py_items payload))
                               (fun items =>
                                  io_ret (text_content
                                            ("Store Inventory:\n"
                                               ++ String.concat "\n"
                                                    (map (fun '(status, count) =>
                                                            status ++ ": " ++ py_str count
                                                              ++ " pets") items))))
                           else io_ret (text_content "Failed to retrieve inventory"))
                          (fun e => io_ret (text_content ("Error: " ++ exn_str e))) srv w)).
  { run_dispatch. rewrite (dict_item_found _ _ Ht).
    run_client ltac:(unfold get_store_inventory). rewrite Hp. unfold io_try.
    destruct (truthy payload); [| reflexivity].
    unfold io_bind, io_lift, io_ret. destruct (py_items payload); reflexivity. }
  rewrite Hrun. split; [| split].
  - intros kv inventory ->. reflexivity.
  - intros ->. reflexivity.
  - intros Htruthy Hnot. unfold io_try. rewrite Htruthy.
    destruct payload; try reflexivity. exfalso. exact (Hnot _ eq_refl).
Qed.

Lemma inventory_rendering_witness :
  fst (call_tool local_client "get_store_inventory" [("auth_token", VStr "tok")]
         (fun _ => Responded {| status_code := 200;
                                response_text := EmptyString;
                                response_json := Ok (VDict [("available", VInt 4);
                                                            ("sold", VInt 1)]) |})
         no_effects)
  = Ok (text_content ("Store Inventory:\navailable: 4 pets" ++ String backslash "n"
                        ++ "sold: 1 pets")).
Proof.
  exact (proj1 (@inventory_rendering local_client [("auth_token", VStr "tok")] (VStr "tok")
                  (VDict [("available", VInt 4); ("sold", VInt 1)])
                  (fun _ => Responded {| status_code := 200;
                                         response_text := EmptyString;
                                         response_json := Ok (VDict [("available", VInt 4);
                                                                     ("sold", VInt 1)]) |})
                  no_effects eq_refl eq_refl) _ _ eq_refl).
Defined.

(** X8: the login tool sends the credentials as query parameters and shows
    the token of an object payload that has one; an object payload without
    a "token" key is reported as invalid credentials, like an absent
    payload. *)
Theorem login_rendering
    (api_client : PetstoreClient) (arguments : dict) (username password : value)
    (payload : dict) (srv : backend) (w : effects) :
  dict_lookup arguments "username" = Some username ->
  dict_lookup arguments "password" = Some password ->
  collapse (srv (build_request api_client "GET" "/user/login" VNone
                   (Some [("username", username); ("password", password)]) None))
  = VDict payload ->
  fst (call_tool api_client "login_user" arguments srv w)
  = Ok (text_content (match dict_lookup payload "token" with
                      | Some token => "Login successful! Token: " ++ py_str token
                      | None => "Login failed - invalid credentials"
                      end)).
Proof.
  intros Hu Hp Hpayload. run_dispatch.
  rewrite (dict_item_found _ _ Hu), (dict_item_found _ _ Hp).
  run_client ltac:(unfold login_user). rewrite Hpayload.
  destruct payload as [| kv payload]; [reflexivity |].
  cbn [truthy py_contains py_getitem]. unfold has_key, dict_item.
  destruct (dict_lookup (kv :: payload) "token"); reflexivity.
Qed.

Lemma login_rendering_witness :
  fst (call_tool local_client "login_user"
         [("username", VStr "ann"); ("password", VStr "pw")]
         (fun _ => Responded {| status_code := 200;
                                response_text := EmptyString;
                                response_json := Ok (VDict [("token", VStr "abc.def")]) |})
         no_effects)
  = Ok (text_content "Login successful! Token: abc.def").
Proof.
  exact (@login_rendering local_client [("username", VStr "ann"); ("password", VStr "pw")]
           (VStr "ann") (VStr "pw") [("token", VStr "abc.def")]
           (fun _ => Responded {| status_code := 200;
                                  response_text := EmptyString;
                                  response_json := Ok (VDict [("token", VStr "abc.def")]) |})
           no_effects eq_refl eq_refl eq_refl).
Defined.

(** The text for a truthy payload: [heading] and the formatter's block, or
    the boundary's error text when the formatter raises. *)
Lemma rendered_or_error (format : value -> res string) (heading failure : string)
    (payload : value) srv w :
  truthy payload = true ->
  fst (io_try
         (if truthy payload then
            io_bind (io_lift (format payload))
              (fun details => io_ret (text_content (heading ++ details)))
          else io_ret (text_content failure))
         (fun e => io_ret (text_content ("Error: " ++ exn_str e))) srv w)
  = Ok (text_content (match format payload with
                      | Ok details => heading ++ details
                      | Raise e => "Error: " ++ exn_str e
                      end)).
Proof.
  intros Ht. rewrite Ht. unfold io_try, io_bind, io_lift, io_ret.
  destruct (format payload); reflexivity.
Qed.

(** X9: for the tools that show an order, a user or a pet, a truthy
    payload is passed to the formatter and shown under the tool's heading;
    when the formatter raises on it, the text is the boundary's "Error: "
    rendering of that exception.  [place_order] and [create_user] post the
    body the dispatcher built from the bag. *)
Theorem payload_rendering
    (api_client : PetstoreClient) (arguments : dict) (payload : value)
    (srv : backend) (w : effects) :
  truthy payload = true ->
  let shown_as (format : value -> res string) (heading : string) :=
    Ok (text_content (match format payload with
                      | Ok details => heading ++ details
                      | Raise e => "Error: " ++ exn_str e
                      end)) in
  (forall order_id auth_token,
     dict_lookup arguments "order_id" = Some order_id ->
     dict_lookup arguments "auth_token" = Some auth_token ->
     collapse (srv (build_request api_client "GET" ("/store/order/" ++ py_str order_id)
                      auth_token None None)) = payload ->
     fst (call_tool api_client "get_order_by_id" arguments srv w)
     = shown_as format_order_details "Order Details:\n")
  /\ (forall pet_id auth_token,
        dict_lookup arguments "pet_id" = Some pet_id ->
        dict_lookup arguments "auth_token" = Some auth_token ->
        collapse (srv (build_request api_client "POST" "/store/order" auth_token None
                         (Some (VDict (order_data pet_id
                                         (dict_get arguments "ship_date" VNone))))))
        = payload ->
        fst (call_tool api_client "place_order" arguments srv w)
        = shown_as format_order_details "Order placed successfully:\n")
  /\ (forall username auth_token,
        dict_lookup arguments "username" = Some username ->
        dict_lookup arguments "auth_token" = Some auth_token ->
        collapse (srv (build_request api_client "GET" ("/user/" ++ py_str username)
                         auth_token None None)) = payload ->
        fst (call_tool api_client "get_user_profile" arguments srv w)
        = shown_as format_user_details "User Profile:\n")
  /\ (forall username password,
        dict_lookup arguments "username" = Some username ->
        dict_lookup arguments "password" = Some password ->
        collapse (srv (build_request api_client "POST" "/user" VNone None
                         (Some (VDict [("username", username);
                                       ("password", password);
                                       ("email", dict_get arguments "email" VNone);
                                       ("firstName", dict_get arguments "first_name" VNone);
                                       ("lastName", dict_get arguments "last_name" VNone);
                                       ("phone", dict_get arguments "phone" VNone)]))))
        = payload ->
        fst (call_tool api_client "create_user" arguments srv w)
        = shown_as format_user_details "User created successfully:\n")
  /\ (forall data auth_token,
        pet_data arguments = Ok data ->
        dict_lookup arguments "auth_token" = Some auth_token ->
        collapse (srv (build_request api_client "POST" "/pet" auth_token None
                         (Some (VDict data)))) = payload ->
        fst (call_tool api_client "add_pet" arguments srv w)
        = shown_as format_pet_details "Pet added successfully:\n").
Proof.
  intros Htruthy shown_as. subst shown_as. cbv beta.
  split; [| split; [| split; [| split]]].
  - intros order_id auth_token Ho Ht Hp.
    rewrite <- (rendered_or_error format_order_details "Order Details:\n"
                  "Order not found or access denied" payload srv w Htruthy).
    run_dispatch. rewrite (dict_item_found _ _ Ho), (dict_item_found _ _ Ht).
    run_client ltac:(unfold get_order_by_id). rewrite Hp. unfold io_try, io_bind.
    destruct (truthy payload); [| reflexivity].
    destruct (format_order_details payload); reflexivity.
  - intros pet_id auth_token Hi Ht Hp.
    rewrite <- (rendered_or_error format_order_details "Order placed successfully:\n"
                  "Failed to place order" payload srv w Htruthy).
    run_dispatch. rewrite (dict_item_found _ _ Hi), (dict_item_found _ _ Ht).
    run_client ltac:(unfold place_order). rewrite Hp. unfold io_try, io_bind.
    destruct (truthy payload); [| reflexivity].
    destruct (format_order_details payload); reflexivity.
  - intros username auth_token Hu Ht Hp.
    rewrite <- (rendered_or_error format_user_details "User Profile:\n"
                  "User not found or access denied" payload srv w Htruthy).
    run_dispatch. rewrite (dict_item_found _ _ Hu), (dict_item_found _ _ Ht).
    run_client ltac:(unfold get_user_profile). rewrite Hp. unfold io_try, io_bind.
    destruct (truthy payload); [| reflexivity].
    destruct (format_user_details payload); reflexivity.
  - intros username password Hu Hw Hp.
    rewrite <- (rendered_or_error format_user_details "User created successfully:\n"
                  "Failed to create user" payload srv w Htruthy).
    run_dispatch. unfold user_data.
    rewrite (dict_item_found _ _ Hu), (dict_item_found _ _ Hw). cbn [res_bind].
    run_client ltac:(unfold create_user). rewrite Hp. unfold io_try, io_bind.
    destruct (truthy payload); [| reflexivity].
    destruct (format_user_details payload); reflexivity.
  - intros data auth_token Hd Ht Hp.
    rewrite <- (rendered_or_error format_pet_details "Pet added successfully:\n"
                  "Failed to add pet" payload srv w Htruthy).
    run_dispatch. rewrite Hd, (dict_item_found _ _ Ht).
    run_client ltac:(unfold add_pet). rewrite Hp. unfold io_try, io_bind.
    destruct (truthy payload); [| reflexivity].
    destruct (format_pet_details payload); reflexivity.
Qed.

Lemma payload_rendering_witness :
  fst (call_tool local_client "create_user"
         [("username", VStr "ann"); ("password", VStr "pw"); ("email", VStr "ann@example.com")]
         echo no_effects)
  = Ok (text_content ("User created successfully:\nUsername: ann" ++ nl
                        ++ "Name: None None" ++ nl
                        ++ "Email: ann@example.com" ++ nl
                        ++ "Phone: None" ++ nl
                        ++ "Role: customer" ++ nl
                        ++ "Status: 1"))
  /\ fst (call_tool local_client "get_order_by_id"
            [("order_id", VInt 3); ("auth_token", VStr "tok")]
            (fun _ => Responded {| status_code := 200;
                                   response_text := EmptyString;
                                   response_json := Ok (VList [VInt 1]) |})
            no_effects)
     = Ok (text_content "Error: 'list' object has no attribute 'get'").
Proof.
  pose proof (@payload_rendering local_client
                [("username", VStr "ann"); ("password", VStr "pw");
                 ("email", VStr "ann@example.com")]
                (VDict [("username", VStr "ann"); ("password", VStr "pw");
                        ("email", VStr "ann@example.com"); ("firstName", VNone);
                        ("lastName", VNone); ("phone", VNone)])
                echo no_effects eq_refl) as Hcreate.
  pose proof (@payload_rendering local_client
                [("order_id", VInt 3); ("auth_token", VStr "tok")]
                (VList [VInt 1])
                (fun _ => Responded {| status_code := 200;
                                       response_text := EmptyString;
                                       response_json := Ok (VList [VInt 1]) |})
                no_effects eq_refl) as Horder.
  cbv zeta beta in Hcreate, Horder.
  destruct Hcreate as (_ & _ & _ & Hcreate & _). destruct Horder as (Horder & _).
  split.
  - exact (Hcreate _ _ eq_refl eq_refl eq_refl).
  - exact (Horder _ _ eq_refl eq_refl eq_refl).
Defined.

(** ** The single-pet block and the created user *)

Lemma join_strs sep urls :
  forallb (fun u => match u with VStr _ => true | _ => false end) urls = true ->
  py_join sep (VList urls) = Ok (String.concat sep (map py_str urls)).
Proof.
  intros H. unfold py_join. cbn [py_iter].
  assert (E : urls = map VStr (map py_str urls)).
  { induction urls as [| u urls IH]; [reflexivity |].
    cbn [forallb] in H. apply andb_prop in H as [Hu Hus].
    destruct u; try discriminate Hu. cbn [map py_str]. rewrite <- (IH Hus). reflexivity. }
  rewrite E at 1. rewrite join_items_strings. reflexivity.
Qed.

(** X10: for a pet as the service describes it whose photo URLs, when
    there, are a list of strs, [format_pet_details] gives the six-line
    block Name, ID, Category, Status, Tags, Photos; a missing name is shown
    as "Unnamed", a missing category as "Unknown", missing or empty tags
    and photos as "None", and the photo URLs are joined by ", " in list
    order. *)
Theorem format_pet_details_block (d : dict) :
  pet_ok (VDict d) = true ->
  photos_ok d = true ->
  format_pet_details (VDict d)
  = Ok ("Name: " ++ shown d "name" "Unnamed" ++ nl
          ++ "ID: " ++ shown d "id" "None" ++ nl
          ++ "Category: " ++ category_text d ++ nl
          ++ "Status: " ++ shown d "status" "None" ++ nl
          ++ "Tags: " ++ tags_text d ++ nl
          ++ "Photos: " ++ photos_text d).
Proof.
  intros Hpet Hphotos. cbn [pet_ok] in Hpet. apply andb_prop in Hpet as [Hc Ht].
  unfold format_pet_details.
  destruct (pet_category_ok d Hc) as (v & Hcat & Hv). rewrite Hcat. cbn [res_bind].
  rewrite (pet_tags_ok d Ht). cbn [res_bind]. rewrite !py_get_dict. cbn [res_bind].
  assert (Hjoin : res_bind (py_join ", " (dict_get d "photoUrls" (VList [])))
                    (fun photos => Ok (py_str (py_or (VStr photos) (VStr "None"))))
                  = Ok (photos_text d)).
  { unfold photos_ok in Hphotos. unfold photos_text, dict_get.
    destruct (dict_lookup d "photoUrls") as [[| | | | urls |] |]; try discriminate Hphotos.
    - rewrite (join_strs _ _ Hphotos). cbn [res_bind]. unfold py_or. cbn [truthy].
      destruct (String.eqb (String.concat ", " (map py_str urls)) EmptyString); reflexivity.
    - reflexivity. }
  destruct (py_join ", " (dict_get d "photoUrls" (VList []))) as [photos | e];
    [| discriminate Hjoin].
  cbn [res_bind] in Hjoin |- *. injection Hjoin as Hjoin.
  rewrite Hjoin, Hv, !py_str_dict_get. unfold tags_text, py_or. cbn [truthy].
  destruct (String.eqb (String.concat ", " (tag_names_of d)) EmptyString); reflexivity.
Qed.

Lemma format_pet_details_block_witness :
  format_pet_details
    (VDict [("id", VInt 1); ("name", VStr "Rex");
            ("category", VDict [("name", VStr "Dogs")]);
            ("photoUrls", VList [VStr "http://a/1.png"; VStr "http://a/2.png"]);
            ("status", VStr "available")])
  = Ok ("Name: Rex" ++ nl ++ "ID: 1" ++ nl ++ "Category: Dogs" ++ nl
          ++ "Status: available" ++ nl ++ "Tags: None" ++ nl
          ++ "Photos: http://a/1.png, http://a/2.png").
Proof.
  exact (@format_pet_details_block
           [("id", VInt 1); ("name", VStr "Rex");
            ("category", VDict [("name", VStr "Dogs")]);
            ("photoUrls", VList [VStr "http://a/1.png"; VStr "http://a/2.png"]);
            ("status", VStr "available")] eq_refl eq_refl).
Defined.

(** X11: the body the dispatcher builds for [create_user] always has the
    six keys username, password, email, firstName, lastName, phone, with
    None for every optional argument the bag lacks.  The keys being there,
    the formatter's defaults for name, email and phone do not apply to a
    service that sends this body back: a field the caller left out is
    shown as "None"; only role and status, which are not in the body, get
    their defaults. *)
Theorem create_user_body (arguments : dict) (username password : value) :
  dict_lookup arguments "username" = Some username ->
  dict_lookup arguments "password" = Some password ->
  exists data,
    user_data arguments = Ok data
    /\ map fst data = ["username"; "password"; "email"; "firstName"; "lastName"; "phone"]
    /\ (dict_lookup arguments "email" = None -> dict_lookup data "email" = Some VNone)
    /\ (dict_lookup arguments "first_name" = None -> dict_lookup data "firstName" = Some VNone)
    /\ (dict_lookup arguments "last_name" = None -> dict_lookup data "lastName" = Some VNone)
    /\ (dict_lookup arguments "phone" = None -> dict_lookup data "phone" = Some VNone)
    /\ format_user_details (VDict data)
       = Ok ("Username: " ++ py_str username ++ nl
               ++ "Name: " ++ shown arguments "first_name" "None" ++ " "
               ++ shown arguments "last_name" "None" ++ nl
               ++ "Email: " ++ shown arguments "email" "None" ++ nl
               ++ "Phone: " ++ shown arguments "phone" "None" ++ nl
               ++ "Role: customer" ++ nl
               ++ "Status: 1").
Proof.
  intros Hu Hp. eexists. split.
  { unfold user_data. rewrite (dict_item_found _ _ Hu), (dict_item_found _ _ Hp).
    reflexivity. }
  split; [reflexivity |].
  split; [intros H; rewrite (dict_get_missing _ _ _ H); reflexivity |].
  split; [intros H; rewrite (dict_get_missing _ _ _ H); reflexivity |].
  split; [intros H; rewrite (dict_get_missing _ _ _ H); reflexivity |].
  split; [intros H; rewrite (dict_get_missing _ _ _ H); reflexivity |].
  unfold format_user_details. rewrite !py_get_dict. cbn [res_bind].
  cbn [dict_get dict_lookup String.eqb Ascii.eqb Bool.eqb].
  rewrite !py_str_dict_get. reflexivity.
Qed.

Lemma create_user_body_witness :
  exists data,
    user_data [("username", VStr "ann"); ("password", VStr "pw")] = Ok data
    /\ format_user_details (VDict data)
       = Ok ("Username: ann" ++ nl ++ "Name: None None" ++ nl ++ "Email: None" ++ nl
               ++ "Phone: None" ++ nl ++ "Role: customer" ++ nl ++ "Status: 1").
Proof.
  destruct (@create_user_body [("username", VStr "ann"); ("password", VStr "pw")]
              (VStr "ann") (VStr "pw") eq_refl eq_refl)
    as (data & Hdata & _ & _ & _ & _ & _ & Hshow).
  exists data. split; [exact Hdata | exact Hshow].
Defined.

(** X12: a value that is not an object has no [get]: the three block
    formatters raise [AttributeError] on it, and so does [format_pets_list]
    on a list that holds it. *)
Theorem formatters_need_objects (v : value) :
  (forall d, v <> VDict d) ->
  let no_get := AttributeError ("'" ++ type_name v ++ "' object has no attribute 'get'") in
  format_order_details v = Raise no_get
  /\ format_user_details v = Raise no_get
  /\ format_pet_details v = Raise no_get
  /\ (forall rest, format_pets_list (VList (v :: rest)) = Raise no_get).
Proof.
  intros Hnot no_get. subst no_get.
  destruct v as [| | | | | d]; try (repeat split; reflexivity).
  exfalso. exact (Hnot d eq_refl).
Qed.

Lemma formatters_need_objects_witness :
  format_order_details (VList [VInt 1])
  = Raise (AttributeError "'list' object has no attribute 'get'")
  /\ format_pets_list (VList [VStr "Rex"])
     = Raise (AttributeError "'str' object has no attribute 'get'").
Proof.
  pose proof (@formatters_need_objects (VList [VInt 1])) as Hlist.
  pose proof (@formatters_need_objects (VStr "Rex")) as Hstr.
  cbv zeta in Hlist, Hstr.
  split.
  - refine (proj1 (Hlist _)). discriminate.
  - refine (proj2 (proj2 (proj2 (Hstr _))) []). discriminate.
Defined.

(** ** The catalog and the dispatcher *)

Lemma returns_text_where_ret (P : string -> Prop) t :
  P t -> returns_text_where P (io_ret (text_content t)).
Proof. intros H srv w l w' E. inversion E. eauto. Qed.

Lemma returns_text_where_bind {A} (P : string -> Prop) (m : io A) k :
  (forall a, returns_text_where P (k a)) -> returns_text_where P (io_bind m k).
Proof.
  intros Hk srv w l w' H. unfold io_bind in H.
  destruct (m srv w) as [[a | e] w1]; [| discriminate].
  eapply Hk; eassumption.
Qed.

Ltac text_where :=
  cbv zeta;
  repeat first
    [ apply returns_text_where_ret; reflexivity
    | apply returns_text_where_bind; intros
    | match goal with
      | |- returns_text_where _ (if ?b then _ else _) => destruct b
      end ].

Ltac each_tool H :=
  unfold list_tools in H; cbn [In] in H;
  repeat (destruct H as [H | H]; [subst |]); [.. | contradiction].

(** X13: the dispatcher has a branch for every tool of the catalog: the
    ten names are distinct, and a dispatch under a catalog name never
    answers "Unknown tool: ...", whatever the bag and the service do. *)
Theorem catalog_names_are_dispatched
    (api_client : PetstoreClient) (arguments : dict) (srv : backend) (w : effects) :
  NoDup (map name list_tools)
  /\ length list_tools = 10%nat
  /\ (forall t, In t list_tools ->
        exists text,
          fst (call_tool api_client (name t) arguments srv w) = Ok (text_content text)
          /\ String.prefix "Unknown tool: " text = false).
Proof.
  split; [| split; [reflexivity |]].
  { cbn [map list_tools name].
    repeat (constructor; [cbn [In]; intros H;
                          repeat (destruct H as [H | H]; [discriminate H |]); exact H |]).
    constructor. }
  intros t Ht.
  assert (Hbody : returns_text_where (fun text => String.prefix "Unknown tool: " text = false)
                    (call_tool_body api_client (name t) arguments)).
  { each_tool Ht; cbn [name]; unfold call_tool_body;
      cbn [String.eqb Ascii.eqb Bool.eqb]; text_where. }
  unfold call_tool, io_try.
  destruct (call_tool_body api_client (name t) arguments srv w) as [[l | e] w1] eqn:E.
  - destruct (Hbody _ _ _ _ E) as (text & -> & Hp). exists text. split; [reflexivity | exact Hp].
  - eexists. split; reflexivity.
Qed.

Lemma catalog_names_are_dispatched_witness :
  exists text,
    fst (call_tool local_client "get_user_profile" [] echo no_effects) = Ok (text_content text)
    /\ String.prefix "Unknown tool: " text = false.
Proof.
  refine (proj2 (proj2 (catalog_names_are_dispatched local_client [] echo no_effects))
            {| name := "get_user_profile";
               description := "Get user profile information";
               inputSchema := _ |} _).
  unfold list_tools. do 7 right. left. reflexivity.
Defined.

(** X14: every argument the schema of a tool lists as required is needed by
    the dispatcher: when the bag lacks one of them, the dispatch returns an
    "Error: ..." text and neither issues a request nor prints. *)
Theorem missing_required_argument
    (api_client : PetstoreClient) (arguments : dict) (srv : backend) (w : effects)
    (t : Tool) (k : string) :
  In t list_tools ->
  In k (required t) ->
  dict_lookup arguments k = None ->
  exists msg,
    call_tool api_client (name t) arguments srv w = (Ok (text_content ("Error: " ++ msg)), w).
Proof.
  intros Ht Hk Hmissing.
  each_tool Ht; cbn [required inputSchema dict_lookup String.eqb Ascii.eqb Bool.eqb flat_map app In]
    in Hk;
    repeat (destruct Hk as [Hk | Hk]; [subst k |]); try contradiction;
    cbn [name]; run_dispatch; unfold user_data, pet_data, dict_item; cbn [res_bind];
    rewrite ?Hmissing;
    repeat match goal with
    | |- context [match dict_lookup arguments ?key with _ => _ end] =>
        destruct (dict_lookup arguments key); cbn [res_bind]
    | |- context [res_bind (py_iter ?v) _] =>
        destruct (py_iter v); cbn [res_bind]
    end;
    rewrite ?Hmissing; eexists; reflexivity.
Qed.

Lemma missing_required_argument_witness :
  exists msg,
    call_tool local_client "place_order" [("pet_id", VInt 7)] echo no_effects
    = (Ok (text_content ("Error: " ++ msg)), no_effects).
Proof.
  refine (@missing_required_argument local_client [("pet_id", VInt 7)] echo no_effects
            {| name := "place_order";
               description := "Place a new order for a pet";
               inputSchema := _ |} "auth_token" _ _ eq_refl).
  - unfold list_tools. do 5 right. left. reflexivity.
  - cbn. right. left. reflexivity.
Defined.

(** ** Where [KeyError] can come from *)

Lemma res_no_key_bind {A B} (m : res A) (k : A -> res B) :
  res_no_key m -> (forall a, res_no_key (k a)) -> res_no_key (res_bind m k).
Proof. intros Hm Hk. destruct m; [apply Hk | exact Hm]. Qed.

Lemma res_no_key_map {A B} (f : A -> res B) l :
  (forall a, res_no_key (f a)) -> res_no_key (res_map f l).
Proof.
  intros Hf. induction l as [| a l IH]; [exact I |].
  rewrite res_map_cons. specialize (Hf a). destruct (f a); [| exact Hf].
  destruct (res_map f l); [exact I | exact IH].
Qed.

Lemma py_get_no_key v k default : res_no_key (py_get v k default).
Proof. destruct v; exact I. Qed.

Lemma py_iter_no_key v : res_no_key (py_iter v).
Proof. destruct v; exact I. Qed.

Lemma py_items_no_key v : res_no_key (py_items v).
Proof. destruct v; exact I. Qed.

Lemma py_len_no_key v : res_no_key (py_len v).
Proof. destruct v; exact I. Qed.

Lemma py_join_no_key sep v : res_no_key (py_join sep v).
Proof.
  destruct (py_join sep v) eqn:E; [exact I |].
  destruct (py_join_type_error _ _ E) as [msg ->]. exact I.
Qed.

Lemma dict_item_no_key d k v : dict_lookup d k = Some v -> res_no_key (dict_item d k).
Proof. intros H. rewrite (dict_item_found _ _ H). exact I. Qed.

Create HintDb nokey.
#[local] Hint Resolve py_get_no_key py_iter_no_key py_items_no_key py_len_no_key
  py_join_no_key dict_item_no_key : nokey.

Ltac res_nokey :=
  repeat first
    [ exact I
    | solve [eauto with nokey]
    | match goal with
      | |- res_no_key (res_bind _ _) => apply res_no_key_bind; [| intros]
      | |- res_no_key (res_map _ _) => apply res_no_key_map; intros
      | |- res_no_key (if ?b then _ else _) => destruct b
      end ].

Lemma formatters_no_key v :
  res_no_key (format_pets_list v)
  /\ res_no_key (format_pet_details v)
  /\ res_no_key (format_order_details v)
  /\ res_no_key (format_user_details v).
Proof.
  repeat split.
  - unfold format_pets_list. destruct (negb (truthy v)); [exact I |].
    apply res_no_key_bind; [apply py_iter_no_key | intros items].
    apply res_no_key_bind; [| intros; exact I].
    apply res_no_key_map. intros pet.
    unfold format_pet_line, pet_category, pet_tags. res_nokey.
  - unfold format_pet_details, pet_category, pet_tags. res_nokey.
  - unfold format_order_details. res_nokey.
  - unfold format_user_details. res_nokey.
Qed.

Lemma io_no_key_ret {A} (a : A) : io_no_key (io_ret a).
Proof. intros srv w. exact I. Qed.

Lemma io_no_key_lift {A} (r : res A) : res_no_key r -> io_no_key (io_lift r).
Proof. intros H srv w. exact H. Qed.

Lemma io_no_key_bind {A B} (m : io A) (k : A -> io B) :
  io_no_key m -> (forall a, io_no_key (k a)) -> io_no_key (io_bind m k).
Proof.
  intros Hm Hk srv w. unfold io_bind. specialize (Hm srv w).
  destruct (m srv w) as [[a | e] w1]; [apply Hk | exact Hm].
Qed.

Lemma make_request_no_key self method endpoint auth_token params json_data :
  io_no_key (_make_request self method endpoint auth_token params json_data).
Proof. intros srv w. rewrite make_request_result. exact I. Qed.

Ltac io_nokey :=
  cbv zeta;
  repeat first
    [ apply io_no_key_ret
    | apply make_request_no_key
    | apply io_no_key_lift;
      first [ apply formatters_no_key | solve [eauto with nokey] | solve [res_nokey] ]
    | apply io_no_key_bind; [| intros]
    | match goal with
      | |- io_no_key (if ?b then _ else _) => destruct b
      end ].

Lemma login_tail_no_key (result : value) (k : value -> io (list TextContent)) m :
  (forall token, io_no_key (k token)) -> io_no_key m ->
  io_no_key
    (io_bind (if truthy result then io_lift (py_contains "token" result) else io_ret false)
       (fun has_token : bool =>
          if has_token then io_bind (io_lift (py_getitem result "token")) k else m)).
Proof.
  intros Hk Hm srv w. unfold io_bind, io_lift, io_ret.
  destruct result as [| b | n | s | l | d]; cbn [truthy py_contains py_getitem].
  - apply Hm.
  - destruct b; [exact I | apply Hm].
  - destruct (negb (Z.eqb n 0)); [exact I | apply Hm].
  - destruct (negb (String.eqb s EmptyString)); [| apply Hm].
    destruct (is_substring "token" s); [exact I | apply Hm].
  - destruct l; [apply Hm |].
    destruct (existsb _ _); [exact I | apply Hm].
  - destruct d as [| kv d]; [apply Hm |].
    unfold has_key, dict_item.
    destruct (dict_lookup (kv :: d) "token"); [apply Hk | apply Hm].
Qed.

(** X15: the schema's required lists are enough for the dispatcher: when
    the bag holds every argument the schema of the tool lists as required,
    the body of [call_tool] never raises [KeyError], whatever the other
    arguments and the service's answer are (the optional arguments are read
    with [get], and the login token is looked up only after the membership
    test). *)
Theorem required_arguments_suffice
    (api_client : PetstoreClient) (arguments : dict) (srv : backend) (w : effects)
    (t : Tool) :
  In t list_tools ->
  (forall k, In k (required t) -> dict_lookup arguments k <> None) ->
  forall e w',
    call_tool_body api_client (name t) arguments srv w = (Raise e, w') ->
    not_key_error e.
Proof.
  intros Ht Hreq e w' Hraise.
  assert (Hbody : io_no_key (call_tool_body api_client (name t) arguments)).
  { assert (Hhave : forall k, In k (required t) -> exists v, dict_lookup arguments k = Some v).
    { intros k Hk. specialize (Hreq k Hk).
      destruct (dict_lookup arguments k); [eauto | contradiction]. }
    clear Hreq Hraise.
    each_tool Ht;
      cbn [required inputSchema dict_lookup String.eqb Ascii.eqb Bool.eqb flat_map app In]
        in Hhave;
      repeat match goal with
      | H : forall k, ?a = k \/ _ -> _ |- _ =>
          let v := fresh "v" in
          let E := fresh "E" in
          destruct (H a (or_introl eq_refl)) as [v E];
          let H' := fresh "H" in
          assert (H' := fun k Hk => H k (or_intror Hk)); clear H
      end;
      cbn [name]; unfold call_tool_body; cbn [String.eqb Ascii.eqb Bool.eqb];
      unfold search_pets_by_status, search_pets_by_tags, get_pet_by_id, get_store_inventory,
        get_order_by_id, place_order, login_user, get_user_profile, create_user, add_pet,
        user_data, pet_data;
      try (apply io_no_key_bind; [solve [io_nokey] |]; intros;
           apply io_no_key_bind; [solve [io_nokey] |]; intros;
           apply io_no_key_bind; [solve [io_nokey] |]; intros;
           apply login_tail_no_key; [intros |]);
      io_nokey. }
  specialize (Hbody srv w). rewrite Hraise in Hbody. exact Hbody.
Qed.

Lemma required_arguments_suffice_witness :
  call_tool_body local_client "get_order_by_id"
    [("order_id", VInt 3); ("auth_token", VStr "tok")]
    (fun _ => Responded {| status_code := 200;
                           response_text := EmptyString;
                           response_json := Ok (VList [VInt 1]) |})
    no_effects
  = (Raise (AttributeError "'list' object has no attribute 'get'"),
     {| issued := [build_request local_client "GET" "/store/order/3" (VStr "tok") None None];
        printed := [] |})
  /\ not_key_error (AttributeError "'list' object has no attribute 'get'").
Proof.
  split; [reflexivity |].
  refine (@required_arguments_suffice local_client
            [("order_id", VInt 3); ("auth_token", VStr "tok")]
            (fun _ => Responded {| status_code := 200;
                                   response_text := EmptyString;
                                   response_json := Ok (VList [VInt 1]) |})
            no_effects
            {| name := "get_order_by_id";
               description := "Get details of a specific order";
               inputSchema := _ |} _ _ _ _ _).
  - unfold list_tools. do 4 right. left. reflexivity.
  - cbn. intros k [<- | [<- | []]]; discriminate.
  - reflexivity.
Defined.

(** ** The requests behind a dispatch *)

Lemma io_bind_lift_ok {A B} (a : A) (k : A -> io B) : io_bind (io_lift (Ok a)) k = k a.
Proof. reflexivity. Qed.

Lemma io_try_issues {A} (m : io A) (handler : exn -> io A) srv w :
  (forall e, sends_nothing (handler e)) ->
  issued (snd (io_try m handler srv w)) = issued (snd (m srv w)).
Proof.
  intros Hh. unfold io_try. destruct (m srv w) as [[a | e] w1]; [reflexivity |].
  apply Hh.
Qed.

Ltac dispatch_issues unfolder :=
  unfold call_tool; rewrite io_try_issues by (intros; quiet);
  unfold call_tool_body; cbn [String.eqb Ascii.eqb Bool.eqb];
  unfolder; rewrite ?io_bind_lift_ok;
  apply bind_make_request_issues; intros; quiet.

(** X16: with its required arguments in the bag, each tool that takes a
    token, and the two that take credentials, issues exactly one request,
    also when the token is empty or null: the dispatcher does not check
    the token, and the request then goes out without an Authorization
    header.  The request is the one of the matching client method. *)
Theorem dispatch_requests
    (api_client : PetstoreClient) (arguments : dict) (srv : backend) (w : effects) :
  (forall auth_token, dict_lookup arguments "auth_token" = Some auth_token ->
     issued (snd (call_tool api_client "get_store_inventory" arguments srv w))
     = (issued w ++ [{| method := "GET";
                        url := base_url api_client ++ "/api/v3/store/inventory";
                        headers := auth_header auth_token;
                        params := None;
                        json := None;
                        request_timeout := timeout api_client |}])%list)
  /\ (forall order_id auth_token,
        dict_lookup arguments "order_id" = Some order_id ->
        dict_lookup arguments "auth_token" = Some auth_token ->
        issued (snd (call_tool api_client "get_order_by_id" arguments srv w))
        = (issued w ++ [{| method := "GET";
                           url := base_url api_client ++ "/api/v3/store/order/"
                                    ++ py_str order_id;
                           headers := auth_header auth_token;
                           params := None;
                           json := None;
                           request_timeout := timeout api_client |}])%list)
  /\ (forall username auth_token,
        dict_lookup arguments "username" = Some username ->
        dict_lookup arguments "auth_token" = Some auth_token ->
        issued (snd (call_tool api_client "get_user_profile" arguments srv w))
        = (issued w ++ [{| method := "GET";
                           url := base_url api_client ++ "/api/v3/user/" ++ py_str username;
                           headers := auth_header auth_token;
                           params := None;
                           json := None;
                           request_timeout := timeout api_client |}])%list)
  /\ (forall username password,
        dict_lookup arguments "username" = Some username ->
        dict_lookup arguments "password" = Some password ->
        issued (snd (call_tool api_client "login_user" arguments srv w))
        = (issued w ++ [{| method := "GET";
                           url := base_url api_client ++ "/api/v3/user/login";
                           headers := [];
                           params := Some [("username", username); ("password", password)];
                           json := None;
                           request_timeout := timeout api_client |}])%list
        /\ issued (snd (call_tool api_client "create_user" arguments srv w))
           = (issued w ++ [{| method := "POST";
                              url := base_url api_client ++ "/api/v3/user";
                              headers := [];
                              params := None;
                              json := Some (VDict
                                        [("username", username);
                                         ("password", password);
                                         ("email", dict_get arguments "email" VNone);
                                         ("firstName", dict_get arguments "first_name" VNone);
                                         ("lastName", dict_get arguments "last_name" VNone);
                                         ("phone", dict_get arguments "phone" VNone)]);
                              request_timeout := timeout api_client |}])%list).
Proof.
  split; [| split; [| split]].
  - intros auth_token Ht.
    dispatch_issues ltac:(rewrite (dict_item_found _ _ Ht); unfold get_store_inventory).
  - intros order_id auth_token Ho Ht.
    dispatch_issues ltac:(rewrite (dict_item_found _ _ Ho), (dict_item_found _ _ Ht);
                          unfold get_order_by_id).
  - intros username auth_token Hu Ht.
    dispatch_issues ltac:(rewrite (dict_item_found _ _ Hu), (dict_item_found _ _ Ht);
                          unfold get_user_profile).
  - intros username password Hu Hp. split.
    + dispatch_issues ltac:(rewrite (dict_item_found _ _ Hu), (dict_item_found _ _ Hp);
                            unfold login_user).
    + dispatch_issues ltac:(unfold user_data;
                            rewrite (dict_item_found _ _ Hu), (dict_item_found _ _ Hp);
                            cbn [res_bind]; unfold create_user).
Qed.

Lemma dispatch_requests_witness :
  map (fun req => (url req, headers req))
    (issued (snd (call_tool local_client "get_order_by_id"
                    [("order_id", VInt 3); ("auth_token", VStr EmptyString)]
                    always_404 no_effects)))
  = [("http://localhost:3002/api/v3/store/order/3", [])].
Proof.
  pose proof (dispatch_requests local_client
                [("order_id", VInt 3); ("auth_token", VStr EmptyString)]
                always_404 no_effects) as (_ & Horder & _).
  rewrite (Horder _ _ eq_refl eq_refl). reflexivity.
Defined.

(** ** The configured base URL *)

(** X17: a client built from the environment sends every request of a
    dispatch under the base URL its environment selects: with [APP_ENV]
    unset or "local" that is [API_BASE_URL] (default
    "http://localhost:3002") and [PRODUCTION_API_URL] is ignored; with any
    other [APP_ENV] it is [PRODUCTION_API_URL] (default
    "https://api.petstore.example.com") and [API_BASE_URL] is ignored.
    The timeout is 30 seconds in both cases. *)
Theorem configured_base_url
    (env : string -> option string) (name : string) (arguments : dict)
    (srv : backend) (w : effects) (req : request) :
  issued (snd (call_tool (PetstoreClient_init env) name arguments srv w))
  = (issued w ++ [req])%list ->
  request_timeout req = 30%Z
  /\ (env "APP_ENV" = None \/ env "APP_ENV" = Some "local" ->
      exists path,
        url req = match env "API_BASE_URL" with
                  | Some base => base
                  | None => "http://localhost:3002"
                  end ++ "/api/v3/" ++ path)
  /\ (forall app_env, env "APP_ENV" = Some app_env -> app_env <> "local" ->
      exists path,
        url req = match env "PRODUCTION_API_URL" with
                  | Some base => base
                  | None => "https://api.petstore.example.com"
                  end ++ "/api/v3/" ++ path).
Proof.
  intros Hreq.
  destruct (call_tool_one (PetstoreClient_init env) name arguments srv w)
    as [Hnone | (req' & Hone & (path & Hurl) & Htime)].
  { rewrite Hnone in Hreq. exfalso.
    assert (Hlen : length (issued w) = length (issued w ++ [req])%list) by (rewrite <- Hreq; reflexivity).
    rewrite length_app in Hlen. cbn in Hlen. lia. }
  rewrite Hone in Hreq. apply app_inj_tail in Hreq as [_ ->].
  split; [exact Htime |]. split.
  - intros Hlocal. exists path. rewrite Hurl. unfold PetstoreClient_init, getenv. cbn [base_url].
    destruct Hlocal as [-> | ->]; reflexivity.
  - intros app_env Happ Hne. exists path. rewrite Hurl.
    unfold PetstoreClient_init, getenv. cbn [base_url]. rewrite Happ.
    destruct (String.eqb_spec app_env "local"); [contradiction | reflexivity].
Qed.

Lemma configured_base_url_witness :
  exists path,
    url (build_request
           (PetstoreClient_init (fun k => if String.eqb k "APP_ENV" then Some "staging"
                                          else if String.eqb k "API_BASE_URL"
                                               then Some "http://ignored" else None))
           "GET" "/store/inventory" (VStr "tok") None None)
    = "https://api.petstore.example.com" ++ "/api/v3/" ++ path.
Proof.
  refine (proj2 (proj2 (@configured_base_url
                          (fun k => if String.eqb k "APP_ENV" then Some "staging"
                                    else if String.eqb k "API_BASE_URL"
                                         then Some "http://ignored" else None)
                          "get_store_inventory" [("auth_token", VStr "tok")]
                          always_404 no_effects _ eq_refl)) "staging" eq_refl _).
  discriminate.
Defined.
